(** * Notebooks: homomorphic-encryption tutorials (TF SEAL, HE Transformer,
      Microsoft SEAL on .NET and Android)

    A shallow embedding of the code cells of the notebooks.  The external
    libraries (TF SEAL, TensorFlow, Microsoft SEAL, System.Diagnostics) stay
    abstract: Python library functions are the fields of an interface, and the
    calls the C# programs make are recorded in a call trace. *)

From Stdlib Require Import ZArith QArith Qabs Lia Lqa Ascii SpecFloat.
From stdpp Require Import gmap strings list.

(** ** Python values and results *)

Module Py.

(** [str] is modelled as a string of bytes; [bytes] as a list of bytes. *)
Definition bytes := list Byte.byte.

(** The exceptions the code cells raise themselves or have raised by the
    operations they apply: [raise argparse.ArgumentTypeError(...)], [/] with
    a zero divisor, [int] of a float that is infinite or not a number. *)
Inductive exn :=
| ArgumentTypeError (msg : string)
| ZeroDivisionError (msg : string)
| OverflowError (msg : string)
| ValueError (msg : string).

Inductive result (A : Type) :=
| Return (a : A)
| Raise (e : exn).
Arguments Return {A} a.
Arguments Raise {A} e.

(** The values [str2bool] handles: a [bool] ([isinstance(v, bool)] holds)
    or a [str] (it has [lower]). *)
Inductive value :=
| PyBool (b : bool)
| PyStr (s : string).

(** [str.lower] on ASCII letters; the other bytes are kept.  Python also
    lower-cases letters outside ASCII, but none of them into the words
    [str2bool] looks for (ASCII words without a "k", the only ASCII letter a
    letter outside ASCII lower-cases to), so membership in those words is the
    same. *)
Definition lower_ascii (c : ascii) : ascii :=
  let n := N_of_ascii c in
  if ((65 <=? n) && (n <=? 90))%N then ascii_of_N (n + 32) else c.

Fixpoint lower (s : string) : string :=
  match s with
  | EmptyString => EmptyString
  | String c s' => String (lower_ascii c) (lower s')
  end.

(** [x in (a, b, ...)] on a tuple of strings compares with [==]. *)
Definition in_tuple (x : string) (t : list string) : bool :=
  existsb (String.eqb x) t.

(** [str.encode()] (UTF-8): the bytes of the string; [str(b)] for a bool. *)
Definition encode (s : string) : bytes := String.list_byte_of_string s.

Definition str_of_bool (b : bool) : string :=
  if b then "True" else "False".

(** The newline character, written [\n] in the sources. *)
Definition nl : string := String (ascii_of_nat 10) EmptyString.

End Py.

(** ** HE Transformer notebook: command-line helpers *)

Module HETransformer.
Import Py.

Definition truthy : list string := ["on"; "yes"; "true"; "t"; "y"; "1"].
Definition falsy : list string := ["off"; "no"; "false"; "f"; "n"; "0"].

(** [[
def str2bool(v):
    if isinstance(v, bool):
        return v
    if v.lower() in ("on", "yes", "true", "t", "y", "1"):
        return True
    elif v.lower() in ("off", "no", "false", "f", "n", "0"):
        return False
    else:
        raise argparse.ArgumentTypeError("Boolean value expected.")
]] *)
Definition str2bool (v : value) : result value :=
  match v with
  | PyBool _ => Return v
  | PyStr s =>
      if in_tuple (lower s) truthy then Return (PyBool true)
      else if in_tuple (lower s) falsy then Return (PyBool false)
      else Raise (ArgumentTypeError "Boolean value expected.")
  end.

(** The namespace [argparse] builds from the command line
    ([--batch_size], [--enable_client], [--backend],
    [--encryption_parameters]). *)
Record Flags := {
  batch_size : Z;
  enable_client : bool;
  backend : string;
  encryption_parameters : string
}.

(** The defaults given to [parser.add_argument]. *)
Definition default_flags : Flags :=
  {| batch_size := 1; enable_client := false;
     backend := "HE_SEAL"; encryption_parameters := "" |}.

(** The protobuf messages the function fills in, with the fields it touches. *)
Record AttrValue := { attr_s : bytes }.

Record CustomGraphOptimizer := {
  name : string;
  parameter_map : gmap string AttrValue
}.

Inductive NumIterationsType := DEFAULT_NUM_ITERS | ONE | TWO.

Record RewriterConfig := {
  meta_optimizer_iterations : NumIterationsType;
  min_graph_nodes : Z;
  custom_optimizers : list CustomGraphOptimizer
}.

Record GraphOptions := { rewrite_options : RewriterConfig }.

Record ConfigProto := { graph_options : GraphOptions }.

(** Freshly constructed messages: every field has its default. *)
Definition new_CustomGraphOptimizer : CustomGraphOptimizer :=
  {| name := ""; parameter_map := ∅ |}.

Definition new_RewriterConfig : RewriterConfig :=
  {| meta_optimizer_iterations := DEFAULT_NUM_ITERS;
     min_graph_nodes := 0;
     custom_optimizers := [] |}.

Definition new_ConfigProto : ConfigProto :=
  {| graph_options := {| rewrite_options := new_RewriterConfig |} |}.

(** Field assignments on [rewriter_options]. *)
Definition set_meta_optimizer_iterations (x : NumIterationsType)
    (r : RewriterConfig) : RewriterConfig :=
  {| meta_optimizer_iterations := x;
     min_graph_nodes := min_graph_nodes r;
     custom_optimizers := custom_optimizers r |}.

Definition set_min_graph_nodes (x : Z) (r : RewriterConfig) : RewriterConfig :=
  {| meta_optimizer_iterations := meta_optimizer_iterations r;
     min_graph_nodes := x;
     custom_optimizers := custom_optimizers r |}.

(** [custom_optimizers.add()] appends a fresh element and returns a reference
    to it: [server_config] aliases the element at the returned index, so the
    later assignments through [server_config] are updates of that element
    inside [rewriter_options]. *)
Definition custom_optimizers_add (r : RewriterConfig) : nat * RewriterConfig :=
  (length (custom_optimizers r),
   {| meta_optimizer_iterations := meta_optimizer_iterations r;
      min_graph_nodes := min_graph_nodes r;
      custom_optimizers := custom_optimizers r ++ [new_CustomGraphOptimizer] |}).

Definition update_optimizer (i : nat)
    (f : CustomGraphOptimizer → CustomGraphOptimizer)
    (r : RewriterConfig) : RewriterConfig :=
  {| meta_optimizer_iterations := meta_optimizer_iterations r;
     min_graph_nodes := min_graph_nodes r;
     custom_optimizers := alter f i (custom_optimizers r) |}.

(** [server_config.name = n] *)
Definition set_name (i : nat) (n : string) : RewriterConfig → RewriterConfig :=
  update_optimizer i
    (λ c, {| name := n; parameter_map := parameter_map c |}).

(** [server_config.parameter_map[k].s = v] *)
Definition set_parameter (i : nat) (k : string) (v : bytes)
  : RewriterConfig → RewriterConfig :=
  update_optimizer i
    (λ c, {| name := name c;
             parameter_map := <[k := {| attr_s := v |}]> (parameter_map c) |}).

(** [dst.MergeFrom(src)]: scalar fields set in [src] overwrite, repeated
    fields are appended. *)
Definition RewriterConfig_MergeFrom (dst src : RewriterConfig) : RewriterConfig :=
  {| meta_optimizer_iterations :=
       match meta_optimizer_iterations src with
       | DEFAULT_NUM_ITERS => meta_optimizer_iterations dst
       | x => x
       end;
     min_graph_nodes :=
       if Z.eqb (min_graph_nodes src) 0 then min_graph_nodes dst
       else min_graph_nodes src;
     custom_optimizers := custom_optimizers dst ++ custom_optimizers src |}.

Definition MergeFrom (dst src : ConfigProto) : ConfigProto :=
  {| graph_options :=
       {| rewrite_options :=
            RewriterConfig_MergeFrom (rewrite_options (graph_options dst))
                                     (rewrite_options (graph_options src)) |} |}.

(** [[
def server_config_from_flags(FLAGS, tensor_param_name):
    rewriter_options = rewriter_config_pb2.RewriterConfig()
    rewriter_options.meta_optimizer_iterations = rewriter_config_pb2.RewriterConfig.ONE
    rewriter_options.min_graph_nodes = -1
    server_config = rewriter_options.custom_optimizers.add()
    server_config.name = "ngraph-optimizer"
    server_config.parameter_map["ngraph_backend"].s = FLAGS.backend.encode()
    server_config.parameter_map["device_id"].s = b""
    server_config.parameter_map[
        "encryption_parameters"].s = FLAGS.encryption_parameters.encode()
    server_config.parameter_map["enable_client"].s = (str(
        FLAGS.enable_client)).encode()
    if FLAGS.enable_client:
        server_config.parameter_map[tensor_param_name].s = b"client_input"

    config = tf.compat.v1.ConfigProto()
    config.MergeFrom(
        tf.compat.v1.ConfigProto(
            graph_options=tf.compat.v1.GraphOptions(
                rewrite_options=rewriter_options)))

    return config
]] *)
Definition server_config_from_flags (FLAGS : Flags) (tensor_param_name : string)
  : ConfigProto :=
  let rewriter_options := new_RewriterConfig in
  let rewriter_options := set_meta_optimizer_iterations ONE rewriter_options in
  let rewriter_options := set_min_graph_nodes (-1) rewriter_options in
  let '(server_config, rewriter_options) := custom_optimizers_add rewriter_options in
  let rewriter_options := set_name server_config "ngraph-optimizer" rewriter_options in
  let rewriter_options :=
    set_parameter server_config "ngraph_backend" (encode (backend FLAGS))
      rewriter_options in
  let rewriter_options :=
    set_parameter server_config "device_id" (encode "") rewriter_options in
  let rewriter_options :=
    set_parameter server_config "encryption_parameters"
      (encode (encryption_parameters FLAGS)) rewriter_options in
  let rewriter_options :=
    set_parameter server_config "enable_client"
      (encode (str_of_bool (enable_client FLAGS))) rewriter_options in
  let rewriter_options :=
    if enable_client FLAGS
    then set_parameter server_config tensor_param_name (encode "client_input")
           rewriter_options
    else rewriter_options in
  let config := new_ConfigProto in
  let config :=
    MergeFrom config
      {| graph_options := {| rewrite_options := rewriter_options |} |} in
  config.

(** The parameter map of the optimizer called [n] in a session configuration,
    when there is exactly one optimizer and it has that name. *)
Definition optimizer_parameters (n : string) (config : ConfigProto)
  : option (gmap string AttrValue) :=
  match custom_optimizers (rewrite_options (graph_options config)) with
  | [c] => if String.eqb (name c) n then Some (parameter_map c) else None
  | _ => None
  end.

(** The keys [server_config_from_flags] always writes. *)
Definition fixed_keys : list string :=
  ["ngraph_backend"; "device_id"; "encryption_parameters"; "enable_client"].

(** The parameters written for every [FLAGS]. *)
Definition base_parameters (FLAGS : Flags) : gmap string AttrValue :=
  <["enable_client" := {| attr_s := encode (str_of_bool (enable_client FLAGS)) |}]>
  (<["encryption_parameters" := {| attr_s := encode (encryption_parameters FLAGS) |}]>
  (<["device_id" := {| attr_s := [] |}]>
  (<["ngraph_backend" := {| attr_s := encode (backend FLAGS) |}]> ∅))).

(** The map [pm] has an entry for [k] whose [s] field is [v]. *)
Definition binds (pm : gmap string AttrValue) (k : string) (v : bytes) : Prop :=
  pm !! k = Some {| attr_s := v |}.

(** What is expected of the configuration returned for [FLAGS] and
    [tensor_param_name]. *)
Definition server_config_expected (FLAGS : Flags) (tensor_param_name : string)
    (config : ConfigProto) : Prop :=
  ∃ pm,
    optimizer_parameters "ngraph-optimizer" config = Some pm
    ∧ binds pm "ngraph_backend" (encode (backend FLAGS))
    ∧ binds pm "device_id" []
    ∧ binds pm "encryption_parameters" (encode (encryption_parameters FLAGS))
    ∧ binds pm "enable_client" (encode (str_of_bool (enable_client FLAGS)))
    ∧ (binds pm tensor_param_name (encode "client_input")
       ↔ enable_client FLAGS = true).

(** The name of the placeholder [main] passes: [a.name] for the placeholder
    named "client_parameter_name". *)
Definition a_name : string := "client_parameter_name:0".

End HETransformer.

(** ** TF SEAL notebooks *)

Module TFSeal.
Import Py.

(** *** Matrices ([numpy] arrays of rank 2) over a scalar type *)

Section Matrices.
Context {R : Type} (zero one : R) (add mul : R → R → R).

Definition matrix := list (list R).

Definition rows (a : matrix) : nat := length a.
Definition cols (a : matrix) : nat :=
  match a with [] => 0%nat | r :: _ => length r end.

(** All rows have the same length [c], and there are [r] of them. *)
Definition has_shape (r c : nat) (a : matrix) : bool :=
  Nat.eqb (length a) r && forallb (λ row, Nat.eqb (length row) c) a.

(** [np.ones((r, c))] *)
Definition ones (r c : nat) : matrix := replicate r (replicate c one).

Definition entry (a : matrix) (i j : nat) : R :=
  nth j (nth i a []) zero.

Definition column (j : nat) (b : matrix) : list R :=
  map (λ row, nth j row zero) b.

(** [b.transpose()] *)
Definition transpose (b : matrix) : matrix :=
  map (λ j, column j b) (seq 0 (cols b)).

(** Sum of products, accumulated from zero. *)
Definition dot (u v : list R) : R :=
  fold_left add (zip_with mul u v) zero.

(** [matmul(a, b)]: defined when the inner dimensions agree. *)
Definition matmul (a b : matrix) : option matrix :=
  if has_shape (rows a) (rows b) a && has_shape (rows b) (cols b) b
  then Some (map (λ row, map (λ j, dot row (column j b)) (seq 0 (cols b))) a)
  else None.
End Matrices.

Definition Qmatrix := @matrix Q.

(** *** The library as the notebooks use it

    [tf_seal] and [tensorflow] are external; the notebooks only call them. *)
Class Library := {
  PublicKeys : Type;
  SecretKey : Type;
  Tensor : Type;                       (* tf_seal.Tensor: an encrypted tensor *)
  TFTensor : Type;                     (* tf.Tensor: a plaintext graph node *)
  seal_key_gen : bool → bool → PublicKeys * SecretKey;
  constant : Qmatrix → SecretKey → PublicKeys → Tensor;
  tfs_matmul : Tensor → Qmatrix + Tensor → Tensor;  (* plain or encrypted operand *)
  poly_eval : Tensor → list Q → Tensor;
  tf_matmul : Qmatrix → Qmatrix → TFTensor;
  tf_sigmoid : TFTensor → TFTensor
}.

Section Notebook.
Context `{L : Library}.

(** [coeffs = np.array([0.5, 0.197, 0.0, -0.004])] *)
Definition coeffs : list Q := [5 # 10; 197 # 1000; 0; - (4 # 1000)]%Q.

(** [[
def sigmoid(x):
    coeffs = np.array([0.5, 0.197, 0.0, -0.004])
    return tfs.poly_eval(x, coeffs)
]] *)
Definition sigmoid (x : Tensor) : Tensor :=
  poly_eval x coeffs.

(** [[
def tf_log_reg(x, y):
    z = tf.matmul(x, y)
    return tf.sigmoid(z)
]] *)
Definition tf_log_reg (x y : Qmatrix) : TFTensor :=
  let z := tf_matmul x y in
  tf_sigmoid z.

End Notebook.

(** *** An implementation of the interface that does not encrypt

    A tensor is its plaintext, [tfs.matmul] multiplies by the transposed
    operand it is given in the clear, and [poly_eval] evaluates the
    polynomial entry by entry, the coefficients in ascending order of the
    power. *)
Definition polynomial (cs : list Q) (x : Q) : Q :=
  fold_right (λ c acc, c + x * acc)%Q 0%Q cs.

Definition Qmatmul (a b : Qmatrix) : Qmatrix :=
  default [] (matmul 0%Q Qplus Qmult a b).

Definition plain_operand (o : Qmatrix + Qmatrix) : Qmatrix :=
  match o with
  | inl m => transpose 0%Q m
  | inr t => t
  end.

Definition plaintext_library : Library :=
  {| PublicKeys := unit;
     SecretKey := unit;
     Tensor := Qmatrix;
     TFTensor := Qmatrix;
     seal_key_gen := λ _ _, (tt, tt);
     constant := λ m _ _, m;
     tfs_matmul := λ t o, Qmatmul t (plain_operand o);
     poly_eval := λ t cs, map (map (polynomial cs)) t;
     tf_matmul := Qmatmul;
     tf_sigmoid := λ t, t |}.

(** *** The timing session of the logistic-regression notebook, idealised

    [time.process_time()] readings are floats; they are taken here as exact
    rationals, and [*], [-], [/] as exact operations.  Of this idealisation
    only what rounding keeps is stated: the order of the shown times and what
    happens when two readings are equal.  The cell as it computes, in
    binary64, is [Cells.LogisticRegression.cell_158]. *)

(** [int(x)] on a float: truncation toward zero. *)
Definition int (x : Q) : Z := Z.quot (Qnum x) (Z.pos (Qden x)).

(** [x / y] on floats raises on a zero divisor. *)
Definition truediv (x y : Q) : result Q :=
  if Qeq_bool y 0 then Raise (ZeroDivisionError "float division by zero")
  else Return (x / y)%Q.

(** [int(1000000*(time_fin - time_ini))/1000000] *)
Definition shown_time (time_ini time_fin : Q) : Q :=
  (inject_Z (int (1000000 * (time_fin - time_ini))) / 1000000)%Q.

(** [int((time_fin1 - time_ini1)/(time_fin2 - time_ini2))] *)
Definition slowdown (time_ini1 time_fin1 time_ini2 time_fin2 : Q) : result Z :=
  match truediv (time_fin1 - time_ini1) (time_fin2 - time_ini2) with
  | Return r => Return (int r)
  | Raise e => Raise e
  end.

(** [k] is [x] cut toward zero to an integer. *)
Definition truncation (x : Q) (k : Z) : Prop :=
  (0 <= x → inject_Z k <= x ∧ x < inject_Z k + 1)%Q
  ∧ (x <= 0 → x <= inject_Z k ∧ inject_Z k - 1 < x)%Q.

(** What [print] is given. *)
Inductive item :=
| Text (s : string)
| Float (x : Q)
| Int (n : Z)
| Array (m : Qmatrix).

(** The [with tf.compat.v1.Session() as sess:] cell: the lines printed, and
    the exception that ends the cell early, if any.  [temp1] and [temp2] are
    what [sess.run(d)] and [sess.run(tf_d)] return; the four clock readings
    are in the order they are taken. *)
Definition timing_session (temp1 temp2 : Qmatrix)
    (time_ini1 time_fin1 time_ini2 time_fin2 : Q)
  : list (list item) * option exn :=
  let printed :=
    [ [Text (nl +:+ "TF SEAL Logistic Regression")];
      [Array temp1];
      [Text (nl +:+ "Approximately Equals" +:+ nl)];
      [Text "Tensorflow Logistic Regression"];
      [Array temp2];
      [Text (nl +:+ "SEAL time:"); Float (shown_time time_ini1 time_fin1); Text "s"];
      [Text "Norm time:"; Float (shown_time time_ini2 time_fin2); Text "s"] ] in
  match slowdown time_ini1 time_fin1 time_ini2 time_fin2 with
  | Return n =>
      (printed ++
         [[Text (nl +:+ "SEAL is about"); Int n;
           Text ("times slower than plaintext." +:+ nl)]],
       None)
  | Raise e => (printed, Some e)
  end.

End TFSeal.

(** ** C# programs on Microsoft SEAL (.NET notebook and Xamarin app) *)

Module CSharp.

(** [Microsoft.Research.SEAL.SchemeType] *)
Inductive SchemeType := BFV | CKKS.

(** Objects are heap references. *)
Definition Ref := nat.

(** What [CoeffModulus.Create(polyModulusDegree, bitSizes)] was asked for;
    the primes themselves are chosen inside the library. *)
Record CoeffModulusValue := {
  cm_poly_modulus_degree : Z;
  cm_bit_sizes : list Z
}.

(** The mutable [EncryptionParameters] object. *)
Record EncryptionParameters := {
  Scheme : SchemeType;
  PolyModulusDegree : Z;
  CoeffModulus : option CoeffModulusValue
}.

(** A piece of a printed line: text, or a number with the format string given
    to [ToString], if any. *)
Inductive Piece :=
| Str (s : string)
| Dbl (x : Q) (format : option string)
| Lng (n : Z).

Definition Line := list Piece.

(** The calls a program makes into the libraries, with their arguments. *)
Inductive Call :=
| New_EncryptionParameters (this : Ref) (scheme : SchemeType)
| Set_PolyModulusDegree (parms : Ref) (n : Z)
| CoeffModulus_Create (n : Z) (bitSizes : list Z)
| Set_CoeffModulus (parms : Ref) (v : CoeffModulusValue)
| Math_Pow (x : Q) (y : Z)
| New_SEALContext (this parms : Ref) (snapshot : option EncryptionParameters)
| Console_WriteLine (l : Line)
| New_KeyGenerator (this context : Ref)
| Get_PublicKey (this keygen : Ref)
| Get_SecretKey (this keygen : Ref)
| New_Encryptor (this context publicKey : Ref)
| New_Decryptor (this context secretKey : Ref)
| New_CKKSEncoder (this context : Ref)
| New_Plaintext (this : Ref)
| New_Ciphertext (this : Ref)
| New_List (this : Ref)
| New_Stopwatch (this : Ref)
| Stopwatch_Start (stopWatch : Ref)
| Stopwatch_Stop (stopWatch : Ref)
| Encode (encoder : Ref) (value scale : Q) (destination : Ref)
| Encrypt (encryptor plain destination : Ref)
| Decrypt (decryptor encrypted destination : Ref)
| Decode (encoder plain destination : Ref)
| Dispose (this : Ref)
| Set_labelText (l : Line)
| OnPropertyChanged (propertyName : string).

(** The namespaces of the members the programs use; [EncDecTiming] is the
    namespace of the Xamarin page, the only one the repository defines. *)
Inductive Namespace :=
| Microsoft_Research_SEAL
| System
| System_Diagnostics
| System_Collections_Generic
| Xamarin_Forms
| EncDecTiming.

(** The member a call invokes: its namespace, its class and its name. *)
Definition member (c : Call) : Namespace * string :=
  match c with
  | New_EncryptionParameters _ _ =>
      (Microsoft_Research_SEAL, "EncryptionParameters.EncryptionParameters")
  | Set_PolyModulusDegree _ _ =>
      (Microsoft_Research_SEAL, "EncryptionParameters.PolyModulusDegree")
  | CoeffModulus_Create _ _ => (Microsoft_Research_SEAL, "CoeffModulus.Create")
  | Set_CoeffModulus _ _ =>
      (Microsoft_Research_SEAL, "EncryptionParameters.CoeffModulus")
  | Math_Pow _ _ => (System, "Math.Pow")
  | New_SEALContext _ _ _ => (Microsoft_Research_SEAL, "SEALContext.SEALContext")
  | Console_WriteLine _ => (System, "Console.WriteLine")
  | New_KeyGenerator _ _ => (Microsoft_Research_SEAL, "KeyGenerator.KeyGenerator")
  | Get_PublicKey _ _ => (Microsoft_Research_SEAL, "KeyGenerator.PublicKey")
  | Get_SecretKey _ _ => (Microsoft_Research_SEAL, "KeyGenerator.SecretKey")
  | New_Encryptor _ _ _ => (Microsoft_Research_SEAL, "Encryptor.Encryptor")
  | New_Decryptor _ _ _ => (Microsoft_Research_SEAL, "Decryptor.Decryptor")
  | New_CKKSEncoder _ _ => (Microsoft_Research_SEAL, "CKKSEncoder.CKKSEncoder")
  | New_Plaintext _ => (Microsoft_Research_SEAL, "Plaintext.Plaintext")
  | New_Ciphertext _ => (Microsoft_Research_SEAL, "Ciphertext.Ciphertext")
  | New_List _ => (System_Collections_Generic, "List.List")
  | New_Stopwatch _ => (System_Diagnostics, "Stopwatch.Stopwatch")
  | Stopwatch_Start _ => (System_Diagnostics, "Stopwatch.Start")
  | Stopwatch_Stop _ => (System_Diagnostics, "Stopwatch.Stop")
  | Encode _ _ _ _ => (Microsoft_Research_SEAL, "CKKSEncoder.Encode")
  | Encrypt _ _ _ => (Microsoft_Research_SEAL, "Encryptor.Encrypt")
  | Decrypt _ _ _ => (Microsoft_Research_SEAL, "Decryptor.Decrypt")
  | Decode _ _ _ => (Microsoft_Research_SEAL, "CKKSEncoder.Decode")
  | Dispose _ => (Microsoft_Research_SEAL, "NativeObject.Dispose")
  | Set_labelText _ => (EncDecTiming, "MainPage.labelText")
  | OnPropertyChanged _ => (Xamarin_Forms, "BindableObject.OnPropertyChanged")
  end.

(** What a run reads back from the libraries. *)
Record World := {
  result_0 : Q;                 (* result[0] after Decode *)
  ElapsedMilliseconds : Z;      (* stopWatch.ElapsedMilliseconds *)
  ElapsedTicks : Z;             (* stopWatch.ElapsedTicks *)
  Frequency : Z                 (* Stopwatch.Frequency *)
}.

(** *** The monad of a program: a heap of parameter objects, a counter for
    fresh references, and the calls made so far *)

Record Heap := {
  next : Ref;
  parameters : gmap Ref EncryptionParameters
}.

Definition empty_heap : Heap := {| next := 0; parameters := ∅ |}.

Definition M (A : Type) : Type := Heap → A * Heap * list Call.

Definition ret {A} (a : A) : M A := λ h, (a, h, []).

Definition bind {A B} (m : M A) (k : A → M B) : M B :=
  λ h, let '(a, h1, t1) := m h in
       let '(b, h2, t2) := k a h1 in
       (b, h2, app t1 t2).

#[global] Instance M_ret : MRet M := @ret.
#[global] Instance M_bind : MBind M := λ A B k m, bind m k.

Definition call (c : Call) : M unit := λ h, (tt, h, [c]).

Definition fresh : M Ref :=
  λ h, (next h, {| next := S (next h); parameters := parameters h |}, []).

Definition load (r : Ref) : M (option EncryptionParameters) :=
  λ h, (parameters h !! r, h, []).

Definition store (r : Ref) (p : EncryptionParameters) : M unit :=
  λ h, (tt, {| next := next h; parameters := <[r := p]> (parameters h) |}, []).

Definition modify (r : Ref) (f : EncryptionParameters → EncryptionParameters)
  : M unit :=
  λ h, (tt, {| next := next h; parameters := alter f r (parameters h) |}, []).

(** The calls of a run from the empty heap. *)
Definition trace {A} (m : M A) : list Call := snd (m empty_heap).

(** [new C(args)]: a fresh object and the constructor call. *)
Definition new (ctor : Ref → Call) : M Ref :=
  r ← fresh; call (ctor r);; ret r.

(** [using T x = e; rest]: [x] is disposed when the enclosing scope ends, so
    declarations are disposed in the reverse order. *)
Definition using_ {A} (e : M Ref) (rest : Ref → M A) : M A :=
  x ← e; a ← rest x; call (Dispose x);; ret a.

Notation "'using' x ← e ; k" := (using_ e (λ x, k))
  (at level 10, x name, e at level 100, k at level 200, only parsing).

(** [for (int i = 0; i < n; i++) body] *)
Fixpoint for_from (i : nat) (n : nat) (body : nat → M unit) : M unit :=
  match n with
  | O => ret tt
  | S n' => body i;; for_from (S i) n' body
  end.

Definition for_ (n : nat) (body : nat → M unit) : M unit := for_from 0 n body.

(** *** Library operations *)

Definition new_EncryptionParameters (scheme : SchemeType) : M Ref :=
  r ← fresh;
  store r {| Scheme := scheme; PolyModulusDegree := 0; CoeffModulus := None |};;
  call (New_EncryptionParameters r scheme);;
  ret r.

Definition set_PolyModulusDegree (parms : Ref) (n : Z) : M unit :=
  modify parms (λ p, {| Scheme := Scheme p; PolyModulusDegree := n;
                        CoeffModulus := CoeffModulus p |});;
  call (Set_PolyModulusDegree parms n).

Definition coeffModulus_Create (n : Z) (bitSizes : list Z) : M CoeffModulusValue :=
  call (CoeffModulus_Create n bitSizes);;
  ret {| cm_poly_modulus_degree := n; cm_bit_sizes := bitSizes |}.

Definition set_CoeffModulus (parms : Ref) (v : CoeffModulusValue) : M unit :=
  modify parms (λ p, {| Scheme := Scheme p;
                        PolyModulusDegree := PolyModulusDegree p;
                        CoeffModulus := Some v |});;
  call (Set_CoeffModulus parms v).

Definition math_Pow (x : Q) (y : Z) : M Q :=
  call (Math_Pow x y);; ret (x ^ y)%Q.

(** The context is built from the parameters as they are at that moment. *)
Definition new_SEALContext (parms : Ref) : M Ref :=
  r ← fresh;
  p ← load parms;
  call (New_SEALContext r parms p);;
  ret r.

(** The constant [2.718281828459] of the programs. *)
Definition e_12 : Q := 2718281828459 # 1000000000000.

(** The objects a program has built before its timed part. *)
Record Env := {
  scale : Q;
  encryptor : Ref;
  decryptor : Ref;
  encoder : Ref;
  xPlain : Ref;
  plainResult : Ref;
  x1Encrypted : Ref;
  result : Ref
}.

(** [[
encoder.Encode(2.718281828459, scale, xPlain);
encryptor.Encrypt(xPlain, x1Encrypted);
decryptor.Decrypt(x1Encrypted, plainResult);
encoder.Decode(plainResult, result);
]] *)
Definition round (env : Env) : M unit :=
  call (Encode (encoder env) e_12 (scale env) (xPlain env));;
  call (Encrypt (encryptor env) (xPlain env) (x1Encrypted env));;
  call (Decrypt (decryptor env) (x1Encrypted env) (plainResult env));;
  call (Decode (encoder env) (plainResult env) (result env)).

(** The part every program starts with, up to [List<double> result]; [rest]
    is what follows in the same scope.
    [[
using EncryptionParameters parms = new EncryptionParameters(SchemeType.CKKS);
ulong polyModulusDegree = 8192;
parms.PolyModulusDegree = polyModulusDegree;
parms.CoeffModulus = CoeffModulus.Create(
    polyModulusDegree, new int[]{ 60, 40, 40, 60 });
double scale = Math.Pow(2.0, 40);

using SEALContext context = new SEALContext(parms);
Console.WriteLine();

using KeyGenerator keygen = new KeyGenerator(context);
using PublicKey publicKey = keygen.PublicKey;
using SecretKey secretKey = keygen.SecretKey;
using Encryptor encryptor = new Encryptor(context, publicKey);
using Decryptor decryptor = new Decryptor(context, secretKey);

using CKKSEncoder encoder = new CKKSEncoder(context);

using Plaintext xPlain = new Plaintext();
using Plaintext plainResult = new Plaintext();
using Ciphertext x1Encrypted = new Ciphertext();

List<double> result = new List<double>();
]] *)
Definition with_setup (rest : Env → M unit) : M unit :=
  using parms ← new_EncryptionParameters CKKS;
  let polyModulusDegree := 8192%Z in
  set_PolyModulusDegree parms polyModulusDegree;;
  cm ← coeffModulus_Create polyModulusDegree [60; 40; 40; 60]%Z;
  set_CoeffModulus parms cm;;
  scale ← math_Pow 2 40;
  using context ← new_SEALContext parms;
  call (Console_WriteLine []);;
  using keygen ← new (λ r, New_KeyGenerator r context);
  using publicKey ← new (λ r, Get_PublicKey r keygen);
  using secretKey ← new (λ r, Get_SecretKey r keygen);
  using encryptor ← new (λ r, New_Encryptor r context publicKey);
  using decryptor ← new (λ r, New_Decryptor r context secretKey);
  using encoder ← new (λ r, New_CKKSEncoder r context);
  using xPlain ← new New_Plaintext;
  using plainResult ← new New_Plaintext;
  using x1Encrypted ← new New_Ciphertext;
  result ← new New_List;
  rest {| scale := scale; encryptor := encryptor; decryptor := decryptor;
          encoder := encoder; xPlain := xPlain; plainResult := plainResult;
          x1Encrypted := x1Encrypted; result := result |}.

(** [Stopwatch stopWatch = new Stopwatch(); stopWatch.Start(); body;
    stopWatch.Stop();] *)
Definition timed (body : M unit) : M unit :=
  stopWatch ← new New_Stopwatch;
  call (Stopwatch_Start stopWatch);;
  body;;
  call (Stopwatch_Stop stopWatch).

(** The bound of the loop, [1000]. *)
Definition loop_count : nat := 1000.

(** The expressions the programs print as a time. *)

(** [stopWatch.ElapsedMilliseconds/1000.0] *)
Definition average_of_milliseconds (elapsedMilliseconds : Z) : Q :=
  (inject_Z elapsedMilliseconds / 1000)%Q.

(** [1000.0*stopWatch.ElapsedTicks/(Stopwatch.Frequency)] *)
Definition milliseconds_of_ticks (elapsedTicks frequency : Z) : Q :=
  (1000 * inject_Z elapsedTicks / inject_Z frequency)%Q.

(** [1.0*stopWatch.ElapsedTicks/(Stopwatch.Frequency)] *)
Definition average_of_ticks (elapsedTicks frequency : Z) : Q :=
  (1 * inject_Z elapsedTicks / inject_Z frequency)%Q.

(** *** First version of the notebook: cells [46], [47], [48] *)

Module In46.
Module test.
(** [[
encoder.Encode(2.718281828459, scale, xPlain);
encryptor.Encrypt(xPlain, x1Encrypted);
decryptor.Decrypt(x1Encrypted, plainResult);
encoder.Decode(plainResult, result);

Console.WriteLine(2.718281828459);
Console.WriteLine(result[0]);
]] *)
Definition Main (w : World) : M unit :=
  with_setup (λ env,
    round env;;
    call (Console_WriteLine [Dbl e_12 None]);;
    call (Console_WriteLine [Dbl (result_0 w) None])).
End test.
End In46.

Module In47.
Module test.
(** [[
Stopwatch stopWatch = new Stopwatch();
stopWatch.Start();
(the four calls)
stopWatch.Stop();

Console.WriteLine(2.718281828459);
Console.WriteLine(result[0]);
Console.WriteLine("Time taken: " + stopWatch.ElapsedMilliseconds.ToString() + "ms");
]] *)
Definition Main (w : World) : M unit :=
  with_setup (λ env,
    timed (round env);;
    call (Console_WriteLine [Dbl e_12 None]);;
    call (Console_WriteLine [Dbl (result_0 w) None]);;
    call (Console_WriteLine
            [Str "Time taken: "; Lng (ElapsedMilliseconds w); Str "ms"])).
End test.
End In47.

Module In48.
Module test.
(** [[
Stopwatch stopWatch = new Stopwatch();
stopWatch.Start();
for (int i = 0; i < 1000; i++){
    (the four calls)
}
stopWatch.Stop();

Console.WriteLine(2.718281828459);
Console.WriteLine(result[0]);
Console.WriteLine("Average Time taken: " + (stopWatch.ElapsedMilliseconds/1000.0).ToString() + "ms");
]] *)
Definition Main (w : World) : M unit :=
  with_setup (λ env,
    timed (for_ loop_count (λ i, round env));;
    call (Console_WriteLine [Dbl e_12 None]);;
    call (Console_WriteLine [Dbl (result_0 w) None]);;
    call (Console_WriteLine
            [Str "Average Time taken: ";
             Dbl (average_of_milliseconds (ElapsedMilliseconds w)) None;
             Str "ms"])).
End test.
End In48.

(** *** Second version of the notebook: cells [16], [23], [25]; each cell
    runs [test.Main();] once *)

Module In16.
Module test.
(** [[
(the four calls)
Console.WriteLine("Original: " + (2.718281828459).ToString());
Console.WriteLine("Enc/Dec:  " + (result[0]).ToString("#.############"));
]] *)
Definition Main (w : World) : M unit :=
  with_setup (λ env,
    round env;;
    call (Console_WriteLine [Str "Original: "; Dbl e_12 None]);;
    call (Console_WriteLine
            [Str "Enc/Dec:  "; Dbl (result_0 w) (Some "#.############")])).
End test.
End In16.

Module In23.
Module test.
(** [[
Console.WriteLine("Original:   " + (2.718281828459).ToString());
Console.WriteLine("Enc/Dec:    " + (result[0]).ToString("#.############"));
Console.WriteLine("Time taken: " + (1000.0*stopWatch.ElapsedTicks/(Stopwatch.Frequency)).ToString() + "ms");
]] *)
Definition Main (w : World) : M unit :=
  with_setup (λ env,
    timed (round env);;
    call (Console_WriteLine [Str "Original:   "; Dbl e_12 None]);;
    call (Console_WriteLine
            [Str "Enc/Dec:    "; Dbl (result_0 w) (Some "#.############")]);;
    call (Console_WriteLine
            [Str "Time taken: ";
             Dbl (milliseconds_of_ticks (ElapsedTicks w) (Frequency w)) None;
             Str "ms"])).
End test.
End In23.

Module In25.
Module test.
(** [[
Console.WriteLine("Original:   " + (2.718281828459).ToString());
Console.WriteLine("Enc/Dec:    " + (result[0]).ToString("#.############"));
Console.WriteLine("Time taken: " + (1.0*stopWatch.ElapsedTicks/(Stopwatch.Frequency)).ToString("##.###") + "ms on average per enc/dec");
]] *)
Definition Main (w : World) : M unit :=
  with_setup (λ env,
    timed (for_ loop_count (λ i, round env));;
    call (Console_WriteLine [Str "Original:   "; Dbl e_12 None]);;
    call (Console_WriteLine
            [Str "Enc/Dec:    "; Dbl (result_0 w) (Some "#.############")]);;
    call (Console_WriteLine
            [Str "Time taken: ";
             Dbl (average_of_ticks (ElapsedTicks w) (Frequency w)) (Some "##.###");
             Str "ms on average per enc/dec"])).
End test.
End In25.

(** *** The Xamarin page *)

Module MainPage.
(** [[
set
{
    labelText = value;
    OnPropertyChanged(nameof(LabelText));
}
]] *)
Definition set_LabelText (value : Line) : M unit :=
  call (Set_labelText value);;
  call (OnPropertyChanged "LabelText").

(** [[
LabelText = "Original: " + (2.718281828459).ToString()
  + "\nEnc/Dec: " + (result[0]).ToString("#.############")
  + "\nTime taken: " + (1.0 * stopWatch.ElapsedTicks / (Stopwatch.Frequency)).ToString("##.###")
  + "ms on average per enc/dec";
]] *)
Definition Handle_Clicked (w : World) : M unit :=
  with_setup (λ env,
    timed (for_ loop_count (λ i, round env));;
    set_LabelText
      [Str "Original: "; Dbl e_12 None;
       Str (Py.nl +:+ "Enc/Dec: "); Dbl (result_0 w) (Some "#.############");
       Str (Py.nl +:+ "Time taken: ");
       Dbl (average_of_ticks (ElapsedTicks w) (Frequency w)) (Some "##.###");
       Str "ms on average per enc/dec"]).
End MainPage.

(** Every C# program of the notebooks. *)
Definition programs : list (World → M unit) :=
  [In46.test.Main; In47.test.Main; In48.test.Main;
   In16.test.Main; In23.test.Main; In25.test.Main;
   MainPage.Handle_Clicked].

End CSharp.

(** ** Properties of call traces *)

Module Spec.
Import CSharp.

(** The calls into [Microsoft.Research.SEAL]. *)
Definition is_seal (c : Call) : bool :=
  match fst (member c) with
  | Microsoft_Research_SEAL => true
  | _ => false
  end.

Definition seal_calls (t : list Call) : list Call := List.filter is_seal t.

(** The cryptographic operations, and the call that performs each. *)
Inductive Operation :=
| KeyGeneration | Encoding | Encryption | Decryption | Decoding.

Definition operation (c : Call) : option Operation :=
  match c with
  | New_KeyGenerator _ _ => Some KeyGeneration
  | Encode _ _ _ _ => Some Encoding
  | Encrypt _ _ _ => Some Encryption
  | Decrypt _ _ _ => Some Decryption
  | Decode _ _ _ => Some Decoding
  | _ => None
  end.

(** The operations of one encrypt/decrypt round, in order. *)
Definition round_operations : list Operation :=
  [Encoding; Encryption; Decryption; Decoding].

Definition round_operation (c : Call) : option Operation :=
  match operation c with
  | Some KeyGeneration => None
  | o => o
  end.

Definition is_keygen (c : Call) : bool :=
  match c with New_KeyGenerator _ _ => true | _ => false end.

Definition is_encrypt (c : Call) : bool :=
  match c with Encrypt _ _ _ => true | _ => false end.

(** Assignments to the properties of an [EncryptionParameters] object. *)
Definition modifies_parameters (c : Call) : bool :=
  match c with
  | Set_PolyModulusDegree _ _ | Set_CoeffModulus _ _ => true
  | _ => false
  end.

(** Output: console lines and the label of the page. *)
Definition is_output (c : Call) : bool :=
  match c with
  | Console_WriteLine _ | Set_labelText _ | OnPropertyChanged _ => true
  | _ => false
  end.

(** The five activities; an import makes no call. *)
Inductive Activity :=
| Importing | ConstructingParameters | CallingLibrary | Timing | Printing.

Definition activity (c : Call) : Activity :=
  match c with
  | New_EncryptionParameters _ _ | Set_PolyModulusDegree _ _
  | CoeffModulus_Create _ _ | Set_CoeffModulus _ _
  | Math_Pow _ _ => ConstructingParameters
  | New_Stopwatch _ | Stopwatch_Start _ | Stopwatch_Stop _ => Timing
  | Console_WriteLine _ | Set_labelText _ | OnPropertyChanged _ => Printing
  | _ => CallingLibrary
  end.

(** The parameters every context is to be built from. *)
Definition ckks_parameters : EncryptionParameters :=
  {| Scheme := CKKS;
     PolyModulusDegree := 8192;
     CoeffModulus := Some {| cm_poly_modulus_degree := 8192;
                             cm_bit_sizes := [60; 40; 40; 60]%Z |} |}.

Definition two_pow_40 : Q := inject_Z (2 ^ 40).

(** The fixed order of the calls: the parameters object is the first call,
    the context is built from it, one key generator is built from the context
    before any encryption, and no other key generator is built. *)
Definition setup_in_order (t : list Call) : Prop :=
  ∃ parms scheme mid1 context snapshot mid2 keygen post,
    t = New_EncryptionParameters parms scheme :: mid1
          ++ New_SEALContext context parms snapshot :: mid2
          ++ New_KeyGenerator keygen context :: post
    ∧ Forall (λ c, is_keygen c = false ∧ is_encrypt c = false) (mid1 ++ mid2)
    ∧ Forall (λ c, is_keygen c = false) post.

(** The rounds: the encode/encrypt/decrypt/decode calls of the trace are [n]
    repetitions of the four operations in order. *)
Definition rounds_in_order (n : nat) (t : list Call) : Prop :=
  omap round_operation t = concat (replicate n round_operations).

(** A ciphertext is decrypted only after an [Encrypt] call has written it. *)
Definition decrypt_after_encrypt (t : list Call) : Prop :=
  ∀ t1 t2 decryptor encrypted destination,
    t = t1 ++ Decrypt decryptor encrypted destination :: t2 →
    ∃ encryptor plain, Encrypt encryptor plain encrypted ∈ t1.

(** The invariant of the contexts of a trace. *)
Definition context_invariant (t : list Call) : Prop :=
  (∃ context parms snapshot, New_SEALContext context parms snapshot ∈ t)
  ∧ (∀ context parms snapshot,
       New_SEALContext context parms snapshot ∈ t →
       snapshot = Some ckks_parameters)
  ∧ (∀ encoder value scale destination,
       Encode encoder value scale destination ∈ t → scale = two_pow_40)
  ∧ (∀ t1 t2 context parms snapshot,
       t = t1 ++ New_SEALContext context parms snapshot :: t2 →
       Forall (λ c, modifies_parameters c = false) t2).

(** The run of the setup from the empty heap: the objects it builds, the
    calls it makes, and the disposals at the end of the scope. *)
Definition env0 : Env :=
  {| scale := two_pow_40; encryptor := 5; decryptor := 6; encoder := 7;
     xPlain := 8; plainResult := 9; x1Encrypted := 10; result := 11 |}.

Definition heap0 : Heap :=
  {| next := 12; parameters := {[ 0%nat := ckks_parameters ]} |}.

Definition setup_calls : list Call :=
  [ New_EncryptionParameters 0 CKKS;
    Set_PolyModulusDegree 0 8192;
    CoeffModulus_Create 8192 [60; 40; 40; 60]%Z;
    Set_CoeffModulus 0 {| cm_poly_modulus_degree := 8192;
                          cm_bit_sizes := [60; 40; 40; 60]%Z |};
    Math_Pow 2 40;
    New_SEALContext 1 0 (Some ckks_parameters);
    Console_WriteLine [];
    New_KeyGenerator 2 1;
    Get_PublicKey 3 2;
    Get_SecretKey 4 2;
    New_Encryptor 5 1 3;
    New_Decryptor 6 1 4;
    New_CKKSEncoder 7 1;
    New_Plaintext 8;
    New_Plaintext 9;
    New_Ciphertext 10;
    New_List 11 ].

Definition round_calls : list Call :=
  [ Encode 7 e_12 two_pow_40 8; Encrypt 5 8 10; Decrypt 6 10 9; Decode 7 9 11 ].

Definition disposals : list Call :=
  map Dispose [10; 9; 8; 7; 6; 5; 4; 3; 2; 1; 0]%nat.

(** The form of every trace: the setup, then the rest of the scope, which is
    the rounds (inside a stopwatch or not), the output and the disposals. *)
Definition scope_calls (stopwatch : bool) (n : nat) (output : list Call)
  : list Call :=
  (if stopwatch then [New_Stopwatch 12; Stopwatch_Start 12] else [])
  ++ concat (replicate n round_calls)
  ++ (if stopwatch then [Stopwatch_Stop 12] else [])
  ++ output ++ disposals.

Definition shape (stopwatch : bool) (n : nat) (output : list Call) : list Call :=
  setup_calls ++ scope_calls stopwatch n output.

(** The SEAL calls of a trace of that form with [n] rounds. *)
Definition seal_shape (n : nat) : list Call :=
  seal_calls setup_calls ++ concat (replicate n round_calls) ++ disposals.

(** Readings of a run: the values of the recorded output of cell [25]. *)
Definition sample_world : World :=
  {| result_0 := 2718281828073 # 1000000000000;
     ElapsedMilliseconds := 11631;
     ElapsedTicks := 116310000;
     Frequency := 10000000 |}.

(** The last line a trace writes to the console. *)
Definition console_line (c : Call) : option Line :=
  match c with Console_WriteLine l => Some l | _ => None end.

Definition last_line (t : list Call) : option Line :=
  last (omap console_line t).

End Spec.

(** ** More of the HE Transformer script *)

Module HETransformerMain.
Import Py HETransformer.

(** TensorFlow names the [index]-th output of the operation [op]
    [op:index]; [a.name] in [main] is such a name, for the placeholder
    operation "client_parameter_name". *)
Definition is_tensor_name (n : string) : Prop :=
  ∃ op index, n = op +:+ ":" +:+ index.

(** [[
def main(FLAGS):
    a = tf.compat.v1.placeholder(
        tf.float32, shape=(1, 1), name="client_parameter_name")
    ...
    config = server_config_from_flags(FLAGS, a.name)
]]
    The configuration [main] gives its session. *)
Definition main_config (FLAGS : Flags) : ConfigProto :=
  server_config_from_flags FLAGS a_name.

End HETransformerMain.

(** ** The polynomial of [sigmoid] *)

Module SigmoidApproximation.

(** The polynomial the comment in [sigmoid] names,
    [0.5 + 0.197x + -0.004x^3]. *)
Definition commented_polynomial (x : Q) : Q :=
  ((5 # 10) + (197 # 1000) * x + - (4 # 1000) * x ^ 3)%Q.

End SigmoidApproximation.

(** ** Object lifetimes and data flow in the C# traces *)

Module Lifetime.
Import CSharp Spec.

(** The object a call constructs; the getters [keygen.PublicKey] and
    [keygen.SecretKey] hand out an object of their own. *)
Definition constructs (c : Call) : option Ref :=
  match c with
  | New_EncryptionParameters this _ | New_SEALContext this _ _
  | New_KeyGenerator this _ | Get_PublicKey this _ | Get_SecretKey this _
  | New_Encryptor this _ _ | New_Decryptor this _ _ | New_CKKSEncoder this _
  | New_Plaintext this | New_Ciphertext this | New_List this
  | New_Stopwatch this => Some this
  | _ => None
  end.

(** The SEAL objects: the ones the programs declare with [using]. *)
Definition constructs_seal (c : Call) : option Ref :=
  if is_seal c then constructs c else None.

Definition disposes (c : Call) : option Ref :=
  match c with Dispose this => Some this | _ => None end.

(** The objects a call is made on or is given. *)
Definition uses (c : Call) : list Ref :=
  match c with
  | Set_PolyModulusDegree parms _ | Set_CoeffModulus parms _ => [parms]
  | New_SEALContext _ parms _ => [parms]
  | New_KeyGenerator _ context | New_CKKSEncoder _ context => [context]
  | Get_PublicKey _ keygen | Get_SecretKey _ keygen => [keygen]
  | New_Encryptor _ context key | New_Decryptor _ context key => [context; key]
  | Stopwatch_Start stopWatch | Stopwatch_Stop stopWatch => [stopWatch]
  | Encode encoder _ _ destination => [encoder; destination]
  | Encrypt object source destination | Decrypt object source destination
  | Decode object source destination => [object; source; destination]
  | Dispose this => [this]
  | _ => []
  end.

(** Every SEAL object is disposed once, when the scope ends: the trace is
    a body without disposals followed by the disposal of the SEAL objects the
    body has constructed, the last constructed first; and no two calls
    construct the same object. *)
Definition disposed_at_end (t : list Call) : Prop :=
  ∃ body,
    t = body ++ map Dispose (reverse (omap constructs_seal body))
    ∧ Forall (λ c, disposes c = None) body
    ∧ NoDup (omap constructs t).

(** A call uses only objects constructed earlier in the trace; [before]
    are the objects constructed before the trace starts. *)
Definition used_after_construction_from (before : list Ref) (t : list Call)
  : Prop :=
  ∀ t1 c t2 r,
    t = t1 ++ c :: t2 → r ∈ uses c → r ∈ before ++ omap constructs t1.

Definition used_after_construction (t : list Call) : Prop :=
  used_after_construction_from [] t.

(** No call uses an object after its disposal. *)
Definition unused_after_disposal (t : list Call) : Prop :=
  ∀ t1 r t2,
    t = t1 ++ Dispose r :: t2 → Forall (λ c, r ∉ uses c) t2.

(** The encryptor and the decryptor are built on the two keys of one key
    generator, in the context the key generator and the encoder are built in,
    and they are the objects every [Encrypt] and [Decrypt] is called on. *)
Definition keys_match (t : list Call) : Prop :=
  ∃ context keygen publicKey secretKey encryptor decryptor encoder,
    New_KeyGenerator keygen context ∈ t
    ∧ Get_PublicKey publicKey keygen ∈ t
    ∧ Get_SecretKey secretKey keygen ∈ t
    ∧ New_Encryptor encryptor context publicKey ∈ t
    ∧ New_Decryptor decryptor context secretKey ∈ t
    ∧ New_CKKSEncoder encoder context ∈ t
    ∧ Forall (λ c, match c with
                   | Encode object _ _ _ | Decode object _ _ => object = encoder
                   | Encrypt object _ _ => object = encryptor
                   | Decrypt object _ _ => object = decryptor
                   | _ => True
                   end) t.

Definition is_round (c : Call) : bool :=
  match round_operation c with Some _ => true | None => false end.

(** The data of a round: what [Encode] writes [Encrypt] reads, what
    [Encrypt] writes [Decrypt] reads, what [Decrypt] writes [Decode] reads;
    the decrypted plaintext is another object than the encoded one, and the
    four buffers are the objects constructed for them. *)
Definition round_dataflow (n : nat) (t : list Call) : Prop :=
  ∃ encoder encryptor decryptor value scale xPlain x1Encrypted plainResult result,
    List.filter is_round t
    = concat (replicate n
        [ Encode encoder value scale xPlain;
          Encrypt encryptor xPlain x1Encrypted;
          Decrypt decryptor x1Encrypted plainResult;
          Decode encoder plainResult result ])
    ∧ xPlain ≠ plainResult
    ∧ New_Plaintext xPlain ∈ t
    ∧ New_Plaintext plainResult ∈ t
    ∧ New_Ciphertext x1Encrypted ∈ t
    ∧ New_List result ∈ t.

Definition is_stopwatch (c : Call) : bool :=
  match c with
  | New_Stopwatch _ | Stopwatch_Start _ | Stopwatch_Stop _ => true
  | _ => false
  end.

(** What the stopwatch measures: it is constructed and started right before
    the rounds and stopped right after them, so the [4 * n] calls of the
    rounds are all that runs between [Start] and [Stop]; there is no other
    stopwatch call. *)
Definition rounds_timed (n : nat) (t : list Call) : Prop :=
  ∃ before stopWatch measured after,
    t = before ++ [New_Stopwatch stopWatch; Stopwatch_Start stopWatch]
          ++ measured ++ Stopwatch_Stop stopWatch :: after
    ∧ Forall (λ c, is_round c = true) measured
    ∧ length measured = (4 * n)%nat
    ∧ Forall (λ c, is_round c = false ∧ is_stopwatch c = false)
        (before ++ after).

(** The programs with a stopwatch and the bound of their loop (one round
    when there is no loop), and the programs without. *)
Definition timed_programs : list ((World → M unit) * nat) :=
  [ (In47.test.Main, 1%nat); (In48.test.Main, 1000%nat);
    (In23.test.Main, 1%nat); (In25.test.Main, 1000%nat);
    (MainPage.Handle_Clicked, 1000%nat) ].

Definition untimed_programs : list (World → M unit) :=
  [In46.test.Main; In16.test.Main].

(** The numbers of a line, with their formats. *)
Definition numbers (l : Line) : Line :=
  List.filter (λ p, match p with Str _ => false | _ => true end) l.

End Lifetime.

(** ** The page as the complete listing of [MainPage.xaml.cs] has it

    In the complete listing the accessors of [LabelText] name the property
    where the cell that introduces them names the field [labelText]:
    [[
private string labelText;
public string LabelText
{
    get { return LabelText; }
    set
    {
        LabelText = value;
        OnPropertyChanged(nameof(LabelText));
    }
}
]]
    so each accessor starts by calling itself.  A call is run with room for
    [depth] more frames on the stack; [None] is a call that has not returned
    when the stack is full. *)

Module Listing.
Import CSharp.

Fixpoint get_LabelText (depth : nat) : M (option Line) :=
  match depth with
  | O => ret None
  | S depth' => get_LabelText depth'
  end.

Fixpoint set_LabelText (depth : nat) (value : Line) : M (option unit) :=
  match depth with
  | O => ret None
  | S depth' =>
      r ← set_LabelText depth' value;
      match r with
      | None => ret None
      | Some _ => call (OnPropertyChanged "LabelText");; ret (Some tt)
      end
  end.

End Listing.

(** ** Python floats: IEEE 754 binary64 *)

Module Binary64.
Import Py.

(** A float is a binary64 number; the operations are those of the standard
    library's specification of binary64 (round to nearest, ties to even). *)
Definition float := spec_float.
Definition prec : Z := 53.
Definition emax : Z := 1024.

Definition sub : float → float → float := SFsub prec emax.
Definition mul : float → float → float := SFmul prec emax.
Definition div : float → float → float := SFdiv prec emax.

(** [float(n)] for an int [n]. *)
Definition of_int (n : Z) : float := binary_normalize prec emax n 0 false.

(** The number the finite float with sign [s], mantissa [m] and exponent
    [e] stands for, [(-1)^s * m * 2^e]. *)
Definition finite_value (s : bool) (m : positive) (e : Z) : Q :=
  let n := if s then Z.neg m else Z.pos m in
  if (0 <=? e)%Z then inject_Z (n * 2 ^ e) else n # Z.to_pos (2 ^ (- e)).

Definition value (x : float) : option Q :=
  match x with
  | S754_zero _ => Some 0%Q
  | S754_finite s m e => Some (finite_value s m e)
  | S754_infinity _ | S754_nan => None
  end.

Definition is_zero (x : float) : bool :=
  match x with S754_zero _ => true | _ => false end.

(** [int(x)] for a float [x]: the number cut toward zero. *)
Definition int (x : float) : result Z :=
  match x with
  | S754_infinity _ =>
      Raise (OverflowError "cannot convert float infinity to integer")
  | S754_nan => Raise (ValueError "cannot convert float NaN to integer")
  | S754_zero _ => Return 0%Z
  | S754_finite s m e => Return (TFSeal.int (finite_value s m e))
  end.

(** [x / y] for floats. *)
Definition truediv (x y : float) : result float :=
  if is_zero y then Raise (ZeroDivisionError "float division by zero")
  else Return (div x y).

(** [n / d] for ints that floats represent exactly (as every int cut from a
    float is, and [1000000]): the quotient, rounded once. *)
Definition int_truediv (n d : Z) : float := div (of_int n) (of_int d).

(** [1000000*(time_fin - time_ini)] *)
Definition microseconds (time_ini time_fin : float) : float :=
  mul (of_int 1000000) (sub time_fin time_ini).

(** [int(1000000*(time_fin - time_ini))/1000000] *)
Definition shown_time (time_ini time_fin : float) : result float :=
  match int (microseconds time_ini time_fin) with
  | Return n => Return (int_truediv n 1000000)
  | Raise e => Raise e
  end.

(** [int((time_fin1 - time_ini1)/(time_fin2 - time_ini2))] *)
Definition slowdown (time_ini1 time_fin1 time_ini2 time_fin2 : float)
  : result Z :=
  match truediv (sub time_fin1 time_ini1) (sub time_fin2 time_ini2) with
  | Return q => int q
  | Raise e => Raise e
  end.

(** C4 as it is stated, for one pair of readings: the time shown is the
    elapsed time cut toward zero to six decimal places. *)
Definition shows_truncated_elapsed_time (time_ini time_fin : float) : Prop :=
  ∃ ini fin k,
    value time_ini = Some ini ∧ value time_fin = Some fin
    ∧ TFSeal.truncation (1000000 * (fin - ini)) k
    ∧ shown_time time_ini time_fin = Return (int_truediv k 1000000).

(** The floats [9.267024629] and [10.325781629]. *)
Definition reading_9_267024629 : float :=
  S754_finite false 5216871083249701 (-49).
Definition reading_10_325781629 : float :=
  S754_finite false 5812898287084189 (-49).

End Binary64.

(** ** The code cells as programs

    The Python cells, and the cells of directives of the C# notebooks.  A
    cell is run for the calls it makes: imports, calls of library members,
    calls of functions the repository defines, [print] and [raise].  The
    objects the libraries return are numbered in the order they are made. *)

Module Cells.
Import Py HETransformer Binary64.

(** The libraries the cells import. *)
Inductive Library := numpy | tensorflow | tf_seal | time | argparse.

(** What the cells pass around. *)
Inductive Val :=
| Obj (id : nat)                     (* an object a library has made *)
| None_
| Bool (b : bool)
| Num (q : Q)                        (* a number as the cell writes it *)
| Numbers (l : list Q)               (* a list of numbers as written *)
| Shape (rows cols : nat)            (* a tuple of two sizes *)
| Text (s : string)
| Float (x : float)                  (* a float read or computed *)
| Integer (n : Z)                    (* an int computed *)
| Pair (a b : Val)
| Feed (placeholder value : Val)     (* a dict with one entry *)
| Kw (name : string) (v : Val)       (* a keyword argument *)
| Name (s : string)                  (* a type or function given by name *)
| Namespace (FLAGS : Flags)
| Message (config : ConfigProto).

Inductive Event :=
| Import (module : string)
| Call (library : Library) (member : string) (arguments : list Val)
       (result : Val)
| Own (function : string) (arguments : list Val)
                                     (* a function of the repository is
                                        called; the events of its body
                                        follow *)
| Print (arguments : list Val)
| Raised (e : exn).                  (* a [raise] statement *)

(** A program from the number of the next object: its result or the
    exception that ends it, and the events up to there. *)
Definition P (A : Type) : Type := nat → result A * nat * list Event.

Definition ret {A} (a : A) : P A := λ s, (Return a, s, []).

Definition bind {A B} (m : P A) (k : A → P B) : P B :=
  λ s, let '(r, s1, t1) := m s in
       match r with
       | Return a => let '(r2, s2, t2) := k a s1 in (r2, s2, app t1 t2)
       | Raise e => (Raise e, s1, t1)
       end.

#[global] Instance P_ret : MRet P := @ret.
#[global] Instance P_bind : MBind P := λ A B k m, bind m k.

(** The events and the outcome of a run that starts at object [s]. *)
Definition events {A} (m : P A) (s : nat) : list Event := snd (m s).
Definition outcome {A} (m : P A) (s : nat) : result A := fst (fst (m s)).

Definition event (e : Event) : P unit := λ s, (Return tt, s, [e]).

(** An operation of the language that can fail. *)
Definition lift {A} (r : result A) : P A := λ s, (r, s, []).

(** [raise e] *)
Definition raise_ {A} (e : exn) : P A := λ s, (Raise e, s, [Raised e]).

Definition import_ (module : string) : P unit := event (Import module).

Definition print_ (arguments : list Val) : P unit := event (Print arguments).

(** A call of a library member that returns a new object. *)
Definition call (library : Library) (member : string) (arguments : list Val)
  : P Val :=
  λ s, (Return (Obj s), S s, [Call library member arguments (Obj s)]).

(** A call of a library member that returns [result]. *)
Definition call_ (library : Library) (member : string) (arguments : list Val)
    (result : Val) : P Val :=
  event (Call library member arguments result);; ret result.

(** A call of a function of the repository: the call, then what the body
    of the function does. *)
Definition own {A} (function : string) (arguments : list Val) (body : P A)
  : P A :=
  event (Own function arguments);; body.

(** [with tf.compat.v1.Session(arguments) as sess: body]: [__exit__] is
    called when the body ends, also when an exception ends it, and the
    exception goes on. *)
Definition with_Session {A} (arguments : list Val) (body : Val → P A) : P A :=
  λ s, let '(r, s1, t1) :=
         (session ← call tensorflow "compat.v1.Session" arguments;
          call_ tensorflow "Session.__enter__" [session] session) s in
       match r with
       | Return sess =>
           let '(r2, s2, t2) := body sess s1 in
           (r2, s2,
            app t1 (app t2 [Call tensorflow "Session.__exit__" [sess] None_]))
       | Raise e => (Raise e, s1, t1)
       end.

(** [np.random.normal(size=(r, c)).astype(np.float32)] *)
Definition random_normal_float32 (r c : nat) : P Val :=
  x ← call numpy "random.normal" [Kw "size" (Shape r c)];
  call numpy "ndarray.astype" [x; Name "np.float32"].

(** [np.ones((r, c))] *)
Definition ones (r c : nat) : P Val := call numpy "ones" [Shape r c].

(** [tfs.seal_key_gen(gen_relin=True, gen_galois=True)]: a tuple of two new
    objects. *)
Definition seal_key_gen : P (Val * Val) :=
  λ s, (Return (Obj s, Obj (S s)), S (S s),
        [Call tf_seal "seal_key_gen"
           [Kw "gen_relin" (Bool true); Kw "gen_galois" (Bool true)]
           (Pair (Obj s) (Obj (S s)))]).

(** *** Getting started with TF SEAL *)

Module TFSealNotebook.

(** [[
import numpy as np
import tensorflow as tf
import tf_seal as tfs
]] *)
Definition cell_53 : P unit :=
  import_ "numpy";; import_ "tensorflow";; import_ "tf_seal".

(** [[
public_keys, secret_key = tfs.seal_key_gen(gen_relin=True, gen_galois=True)
]] *)
Definition cell_71 : P (Val * Val) := seal_key_gen.

(** [[
a_plain = np.random.normal(size=(1, 2)).astype(np.float32)
print("a_plain =",a_plain)
a = tfs.constant(a_plain, secret_key, public_keys)
]] *)
Definition cell_97 (public_keys secret_key : Val) : P (Val * Val) :=
  a_plain ← random_normal_float32 1 2;
  print_ [Text "a_plain ="; a_plain];;
  a ← call tf_seal "constant" [a_plain; secret_key; public_keys];
  ret (a_plain, a).

(** [[
b  = np.ones((2, 1)).astype(np.float32)
]] *)
Definition cell_141 : P Val :=
  x ← ones 2 1;
  call numpy "ndarray.astype" [x; Name "np.float32"].

(** [[
c = tfs.matmul(a, b.transpose())
d = tf.matmul(a_plain, b)
]] *)
Definition cell_157 (a_plain a b : Val) : P (Val * Val) :=
  b_transpose ← call numpy "ndarray.transpose" [b];
  c ← call tf_seal "matmul" [a; b_transpose];
  d ← call tensorflow "matmul" [a_plain; b];
  ret (c, d).

(** [[
with tf.compat.v1.Session() as sess:
    print("SEAL: ", sess.run(c))
    print("Plain:", sess.run(d))
]] *)
Definition cell_183 (c d : Val) : P unit :=
  with_Session [] (λ sess,
    x ← call tensorflow "Session.run" [sess; c];
    print_ [Text "SEAL: "; x];;
    y ← call tensorflow "Session.run" [sess; d];
    print_ [Text "Plain:"; y]).

(** [[
a_plain = np.random.normal(size=(1,1)).astype(np.float32)
b_plain = np.random.normal(size=(1,1)).astype(np.float32)

print("a_plain =", a_plain)
print("b_plain =", b_plain)

a = tfs.constant(a_plain, secret_key, public_keys)
b = tfs.constant(b_plain, secret_key, public_keys)

c = tfs.matmul(a, b)
d = tf.matmul(a_plain, b_plain)

with tf.compat.v1.Session() as sess:
    print("\nSEAL: ", sess.run(c))
    print("Plain:", sess.run(d))
]] *)
Definition cell_217 (public_keys secret_key : Val) : P unit :=
  a_plain ← random_normal_float32 1 1;
  b_plain ← random_normal_float32 1 1;
  print_ [Text "a_plain ="; a_plain];;
  print_ [Text "b_plain ="; b_plain];;
  a ← call tf_seal "constant" [a_plain; secret_key; public_keys];
  b ← call tf_seal "constant" [b_plain; secret_key; public_keys];
  c ← call tf_seal "matmul" [a; b];
  d ← call tensorflow "matmul" [a_plain; b_plain];
  with_Session [] (λ sess,
    x ← call tensorflow "Session.run" [sess; c];
    print_ [Text (nl +:+ "SEAL: "); x];;
    y ← call tensorflow "Session.run" [sess; d];
    print_ [Text "Plain:"; y]).

(** The cells, run from the first to the last. *)
Definition run : P unit :=
  cell_53;;
  '(public_keys, secret_key) ← cell_71;
  '(a_plain, a) ← cell_97 public_keys secret_key;
  b ← cell_141;
  '(c, d) ← cell_157 a_plain a b;
  cell_183 c d;;
  cell_217 public_keys secret_key.

End TFSealNotebook.

(** *** The HE Transformer script *)

Module HETransformerScript.

(** [[
import ngraph_bridge
import argparse
import numpy as np
import tensorflow as tf
from tensorflow.core.protobuf import rewriter_config_pb2
]] *)
Definition cell_339 : P unit :=
  import_ "ngraph_bridge";; import_ "argparse";; import_ "numpy";;
  import_ "tensorflow";; import_ "tensorflow.core.protobuf.rewriter_config_pb2".

(** [str2bool], with its [raise] as an event. *)
Definition str2bool (v : Py.value) : P Py.value :=
  match HETransformer.str2bool v with
  | Return r => ret r
  | Raise e => raise_ e
  end.

(** [[
def server_config_from_flags(FLAGS, tensor_param_name):
    rewriter_options = rewriter_config_pb2.RewriterConfig()
    rewriter_options.meta_optimizer_iterations = rewriter_config_pb2.RewriterConfig.ONE
    rewriter_options.min_graph_nodes = -1
    server_config = rewriter_options.custom_optimizers.add()
    server_config.name = "ngraph-optimizer"
    server_config.parameter_map["ngraph_backend"].s = FLAGS.backend.encode()
    server_config.parameter_map["device_id"].s = b""
    server_config.parameter_map[
        "encryption_parameters"].s = FLAGS.encryption_parameters.encode()
    server_config.parameter_map["enable_client"].s = (str(
        FLAGS.enable_client)).encode()
    if FLAGS.enable_client:
        server_config.parameter_map[tensor_param_name].s = b"client_input"

    config = tf.compat.v1.ConfigProto()
    config.MergeFrom(
        tf.compat.v1.ConfigProto(
            graph_options=tf.compat.v1.GraphOptions(
                rewrite_options=rewriter_options)))

    return config
]]
    The calls the function makes.  The assignments to the fields of the
    messages are no events, and [str] and [encode] are of the language; the
    message they leave in [config] is [HETransformer.server_config_from_flags],
    and the value returned is written as that message. *)
Definition server_config_from_flags (FLAGS : Flags)
    (tensor_param_name : string) : P Val :=
  rewriter_options ← call tensorflow "rewriter_config_pb2.RewriterConfig" [];
  server_config ← call tensorflow "RewriterConfig.custom_optimizers.add"
                    [rewriter_options];
  config ← call tensorflow "compat.v1.ConfigProto" [];
  graph_options ← call tensorflow "compat.v1.GraphOptions"
                    [Kw "rewrite_options" rewriter_options];
  other ← call tensorflow "compat.v1.ConfigProto"
            [Kw "graph_options" graph_options];
  call_ tensorflow "ConfigProto.MergeFrom" [config; other] None_;;
  ret (Message
         (HETransformer.server_config_from_flags FLAGS tensor_param_name)).

(** [[
def main(FLAGS):
    a = tf.compat.v1.placeholder(
        tf.float32, shape=(1, 1), name="client_parameter_name")

    b = tf.constant(np.ones((1, 1)), dtype=np.float32)
    config = server_config_from_flags(FLAGS, a.name)
    
    with tf.compat.v1.Session(config=config) as sess:
        a_val = sess.run(a, feed_dict={a: np.ones((1, 1))})
        b_val = sess.run(b, feed_dict={a: np.ones((1, 1))})
        print(a_val, b_val)
]]
    The first [main], of the cells at lines 464 and 484. *)
Definition main (FLAGS : Flags) : P unit :=
  a ← call tensorflow "compat.v1.placeholder"
        [Name "tf.float32"; Kw "shape" (Shape 1 1);
         Kw "name" (Text "client_parameter_name")];
  x ← ones 1 1;
  b ← call tensorflow "constant" [x; Kw "dtype" (Name "np.float32")];
  a_name ← call_ tensorflow "Tensor.name" [a] (Text HETransformer.a_name);
  config ← own "server_config_from_flags" [Namespace FLAGS; a_name]
             (server_config_from_flags FLAGS HETransformer.a_name);
  with_Session [Kw "config" config] (λ sess,
    x ← ones 1 1;
    a_val ← call tensorflow "Session.run" [sess; a; Kw "feed_dict" (Feed a x)];
    y ← ones 1 1;
    b_val ← call tensorflow "Session.run" [sess; b; Kw "feed_dict" (Feed a y)];
    print_ [a_val; b_val]).

(** [[
def main(FLAGS):
    a = tf.compat.v1.placeholder(
        tf.float32, shape=(1, 1), name="client_parameter_name")

    b = tf.constant(np.ones((1, 1)), dtype=np.float32)
    c = a * b
    config = server_config_from_flags(FLAGS, a.name)
    
    with tf.compat.v1.Session(config=config) as sess:
        a_val = sess.run(a, feed_dict={a: np.ones((1, 1))})
        c_val = sess.run(c, feed_dict={a: np.ones((1, 1))})
]]
    The second [main], of the cell at line 556; [a * b] on two tensors is
    the tensors' own multiplication. *)
Definition main_556 (FLAGS : Flags) : P unit :=
  a ← call tensorflow "compat.v1.placeholder"
        [Name "tf.float32"; Kw "shape" (Shape 1 1);
         Kw "name" (Text "client_parameter_name")];
  x ← ones 1 1;
  b ← call tensorflow "constant" [x; Kw "dtype" (Name "np.float32")];
  c ← call tensorflow "Tensor.__mul__" [a; b];
  a_name ← call_ tensorflow "Tensor.name" [a] (Text HETransformer.a_name);
  config ← own "server_config_from_flags" [Namespace FLAGS; a_name]
             (server_config_from_flags FLAGS HETransformer.a_name);
  with_Session [Kw "config" config] (λ sess,
    x ← ones 1 1;
    a_val ← call tensorflow "Session.run" [sess; a; Kw "feed_dict" (Feed a x)];
    y ← ones 1 1;
    c_val ← call tensorflow "Session.run" [sess; c; Kw "feed_dict" (Feed a y)];
    ret tt).

(** [[
if __name__ == "__main__":
    parser = argparse.ArgumentParser()
    parser.add_argument("--batch_size", type=int, default=1, help="Batch size")
    parser.add_argument(
        "--enable_client",
        type=str2bool,
        default=False,
        help="Enable the client")
    parser.add_argument(
        "--backend", type=str, default="HE_SEAL", help="Name of backend to use")
    parser.add_argument(
        "--encryption_parameters",
        type=str,
        default="",
        help=
        "Filename containing json description of encryption parameters, or json description itself",
    )

    FLAGS, unparsed = parser.parse_known_args()
    main(FLAGS)
]]
    The script run as a program, with the [main] it has; [FLAGS] is the
    namespace [parse_known_args] returns (it is [parse_known_args] that
    calls [str2bool], on the value given for [--enable_client]). *)
Definition parse_known_args (parser : Val) (FLAGS : Flags) : P Val :=
  λ s, (Return (Namespace FLAGS), S s,
        [Call argparse "ArgumentParser.parse_known_args" [parser]
           (Pair (Namespace FLAGS) (Obj s))]).

Definition cell_429 (main : Flags → P unit) (FLAGS : Flags) : P unit :=
  parser ← call argparse "ArgumentParser" [];
  call_ argparse "ArgumentParser.add_argument"
    [parser; Text "--batch_size"; Kw "type" (Name "int"); Kw "default" (Num 1);
     Kw "help" (Text "Batch size")] None_;;
  call_ argparse "ArgumentParser.add_argument"
    [parser; Text "--enable_client"; Kw "type" (Name "str2bool");
     Kw "default" (Bool false); Kw "help" (Text "Enable the client")] None_;;
  call_ argparse "ArgumentParser.add_argument"
    [parser; Text "--backend"; Kw "type" (Name "str");
     Kw "default" (Text "HE_SEAL"); Kw "help" (Text "Name of backend to use")]
    None_;;
  call_ argparse "ArgumentParser.add_argument"
    [parser; Text "--encryption_parameters"; Kw "type" (Name "str");
     Kw "default" (Text EmptyString);
     Kw "help" (Text "Filename containing json description of encryption parameters, or json description itself")]
    None_;;
  namespace ← parse_known_args parser FLAGS;
  own "main" [namespace] (main FLAGS).

End HETransformerScript.

(** *** Logistic regression and TF SEAL performance *)

Module LogisticRegression.

(** [[
import numpy as np
import tensorflow as tf
import tf_seal as tfs
import time
]] *)
Definition cell_44 : P unit :=
  import_ "numpy";; import_ "tensorflow";; import_ "tf_seal";; import_ "time".

(** [[
def sigmoid(x):
    coeffs = np.array([0.5, 0.197, 0.0, -0.004])
    return tfs.poly_eval(x, coeffs)
]] *)
Definition sigmoid (x : Val) : P Val :=
  coeffs ← call numpy "array" [Numbers TFSeal.coeffs];
  call tf_seal "poly_eval" [x; coeffs].

(** [[
def tf_log_reg(x, y):
    z = tf.matmul(x, y)
    return tf.sigmoid(z)
]] *)
Definition tf_log_reg (x y : Val) : P Val :=
  z ← call tensorflow "matmul" [x; y];
  call tensorflow "sigmoid" [z].

(** [[
public_keys, secret_key = tfs.seal_key_gen(gen_relin=True, gen_galois=True)
a_plain = np.random.normal(size=(2, 2)).astype(np.float32)
a = tfs.constant(a_plain, secret_key, public_keys)
b = np.random.normal(size=(2, 2)).astype(np.float32)
c = tfs.matmul(a, b.transpose())
d = sigmoid(c)
tf_d = tf_log_reg(a_plain, b)
]] *)
Definition cell_106 : P (Val * Val) :=
  '(public_keys, secret_key) ← seal_key_gen;
  a_plain ← random_normal_float32 2 2;
  a ← call tf_seal "constant" [a_plain; secret_key; public_keys];
  b ← random_normal_float32 2 2;
  b_transpose ← call numpy "ndarray.transpose" [b];
  c ← call tf_seal "matmul" [a; b_transpose];
  d ← own "sigmoid" [c] (sigmoid c);
  tf_d ← own "tf_log_reg" [a_plain; b] (tf_log_reg a_plain b);
  ret (d, tf_d).

(** The four readings of [time.process_time()], in the order they are
    taken. *)
Record Readings := {
  time_ini1 : float;
  time_fin1 : float;
  time_ini2 : float;
  time_fin2 : float
}.

Definition process_time (reading : float) : P float :=
  call_ time "process_time" [] (Float reading);; ret reading.

(** [[
with tf.compat.v1.Session() as sess:
    print("\nTF SEAL Logistic Regression")

    time_ini1 = time.process_time()
    temp = sess.run(d)
    time_fin1 = time.process_time()
    print(temp)

    print("\nApproximately Equals\n")
    print("Tensorflow Logistic Regression")

    time_ini2 = time.process_time()
    temp = sess.run(tf_d)
    time_fin2 = time.process_time()
    print(temp)
    
    print("\nSEAL time:", int(1000000*(time_fin1 - time_ini1))/1000000, "s")
    print("Norm time:", int(1000000*(time_fin2 - time_ini2))/1000000, "s")
    print("\nSEAL is about", int((time_fin1 - time_ini1)/(time_fin2 - time_ini2)), "times slower than plaintext.\n")
]] *)
Definition cell_158 (d tf_d : Val) (r : Readings) : P unit :=
  with_Session [] (λ sess,
    print_ [Text (nl +:+ "TF SEAL Logistic Regression")];;
    time_ini1 ← process_time (time_ini1 r);
    temp ← call tensorflow "Session.run" [sess; d];
    time_fin1 ← process_time (time_fin1 r);
    print_ [temp];;
    print_ [Text (nl +:+ "Approximately Equals" +:+ nl)];;
    print_ [Text "Tensorflow Logistic Regression"];;
    time_ini2 ← process_time (time_ini2 r);
    temp ← call tensorflow "Session.run" [sess; tf_d];
    time_fin2 ← process_time (time_fin2 r);
    print_ [temp];;
    seal_time ← lift (shown_time time_ini1 time_fin1);
    print_ [Text (nl +:+ "SEAL time:"); Float seal_time; Text "s"];;
    norm_time ← lift (shown_time time_ini2 time_fin2);
    print_ [Text "Norm time:"; Float norm_time; Text "s"];;
    ratio ← lift (slowdown time_ini1 time_fin1 time_ini2 time_fin2);
    print_ [Text (nl +:+ "SEAL is about"); Integer ratio;
            Text ("times slower than plaintext." +:+ nl)]).

(** The cells, run from the first to the last. *)
Definition run (r : Readings) : P unit :=
  cell_44;;
  '(d, tf_d) ← cell_106;
  cell_158 d tf_d r.

End LogisticRegression.

(** *** The directives of the C# notebooks *)

Module DotNet.

(** [[
#r "nuget:Microsoft.Research.SEALNet, 3.5.1"
using Microsoft.Research.SEAL;

using System;
using System.Diagnostics;
]]
    The cell at line 691, and again at line 921. *)
Definition cell_691 : P unit :=
  import_ "nuget:Microsoft.Research.SEALNet, 3.5.1";;
  import_ "Microsoft.Research.SEAL";; import_ "System";;
  import_ "System.Diagnostics".

Definition cell_921 : P unit := cell_691.

(** [[
using System;
using System.Collections.Generic;
using System.ComponentModel;
using System.Linq;
using System.Text;
using System.Threading.Tasks;
using Xamarin.Forms;
]] *)
Definition cell_1308 : P unit :=
  import_ "System";; import_ "System.Collections.Generic";;
  import_ "System.ComponentModel";; import_ "System.Linq";;
  import_ "System.Text";; import_ "System.Threading.Tasks";;
  import_ "Xamarin.Forms".

(** [[
using System.Diagnostics;
using Microsoft.Research.SEAL;
]] *)
Definition cell_1330 : P unit :=
  import_ "System.Diagnostics";; import_ "Microsoft.Research.SEAL".

End DotNet.

(** *** The activities *)

(** The activity of an event, for the events that are one of the five: an
    import, a call of a library member (of [time]: timing), a [print].  The
    call of a function of the repository is judged by the events of its
    body, which follow it; a [raise] is none of the five. *)
Definition activity (e : Event) : option Spec.Activity :=
  match e with
  | Import _ => Some Spec.Importing
  | Call time _ _ _ => Some Spec.Timing
  | Call _ _ _ _ => Some Spec.CallingLibrary
  | Print _ => Some Spec.Printing
  | Own _ _ | Raised _ => None
  end.

Definition own_function (e : Event) : option string :=
  match e with Own function _ => Some function | _ => None end.

(** A sequence of activities, written by its runs. *)
Definition runs {A} (l : list (A * nat)) : list A :=
  concat (map (λ x, replicate (snd x) (fst x)) l).

(** What the cells print. *)
Definition printed (t : list Event) : list (list Val) :=
  omap (λ e, match e with Print arguments => Some arguments | _ => None end) t.

End Cells.

(** ** The activities of the C# programs *)

Module Activities.
Import CSharp Spec Cells.

(** The activities of a C# program, in the order of its calls: the
    encryption parameters and the scale, the context, the blank line, the
    keys and the other objects, the rounds (between [Start] and [Stop] of a
    new stopwatch or not), [k] calls that print, the disposals. *)
Definition profile (stopwatch : bool) (n k : nat) : list Activity :=
  runs [ (ConstructingParameters, 5%nat); (CallingLibrary, 1%nat);
         (Printing, 1%nat); (CallingLibrary, 10%nat) ]
  ++ (if stopwatch then [Timing; Timing] else [])
  ++ replicate (4 * n) CallingLibrary
  ++ (if stopwatch then [Timing] else [])
  ++ replicate k Printing
  ++ replicate 11 CallingLibrary.

(** Each program with its stopwatch, its number of rounds and the number of
    calls that print after the rounds. *)
Definition program_profiles : list ((World → M unit) * (bool * nat * nat)) :=
  [ (In46.test.Main, (false, 1%nat, 2%nat));
    (In47.test.Main, (true, 1%nat, 3%nat));
    (In48.test.Main, (true, 1000%nat, 3%nat));
    (In16.test.Main, (false, 1%nat, 2%nat));
    (In23.test.Main, (true, 1%nat, 3%nat));
    (In25.test.Main, (true, 1000%nat, 3%nat));
    (MainPage.Handle_Clicked, (true, 1000%nat, 2%nat)) ].

End Activities.

(** ** Where keys and encrypted tensors go in the Python cells *)

Module Dataflow.
Import Cells.

(** The objects a value holds. *)
Fixpoint objects (v : Val) : list nat :=
  match v with
  | Obj id => [id]
  | Pair a b => objects a ++ objects b
  | Feed a b => objects a ++ objects b
  | Kw _ v => objects v
  | _ => []
  end.

(** The objects an event is given. *)
Definition given (e : Event) : list nat :=
  match e with
  | Call _ _ arguments _ | Own _ arguments | Print arguments =>
      concat (map objects arguments)
  | Import _ | Raised _ => []
  end.

(** The keys and the encrypted tensors an event makes: what a member of
    [tf_seal] returns. *)
Definition makes_encrypted (e : Event) : list nat :=
  match e with
  | Call tf_seal _ _ result => objects result
  | _ => []
  end.

(** The events of the encrypted computation: a call of a member of
    [tf_seal], of [sess.run], or of [sigmoid]. *)
Definition takes_encrypted (e : Event) : bool :=
  match e with
  | Call tf_seal _ _ _ => true
  | Call tensorflow member _ _ => String.eqb member "Session.run"
  | Own function _ => String.eqb function "sigmoid"
  | _ => false
  end.

(** Keys and encrypted tensors are given to those only: they are not
    printed, and not given to [numpy] or to another member of
    [tensorflow]. *)
Definition encrypted_kept (t : list Event) : Prop :=
  ∀ e id,
    e ∈ t → id ∈ given e → id ∈ concat (map makes_encrypted t) →
    takes_encrypted e = true.

(** The object [key] is given to [tfs.constant] only. *)
Definition only_to_constant (key : nat) (t : list Event) : Prop :=
  ∀ e, e ∈ t → key ∈ given e →
    ∃ arguments result, e = Call tf_seal "constant" arguments result.

(** Each clock reading is taken right before or right after a [sess.run]:
    the trace is [before], a reading, [sess.run] of [d], a reading,
    [between], a reading, [sess.run] of [tf_d], a reading, [after], with no
    reading anywhere else and only prints between the two measurements. *)
Definition runs_timed (d tf_d : Val) (r : LogisticRegression.Readings)
    (t : list Event) : Prop :=
  ∃ before sess temp1 between temp2 after,
    t = before
        ++ [ Call time "process_time" [] (Float (LogisticRegression.time_ini1 r));
             Call tensorflow "Session.run" [sess; d] temp1;
             Call time "process_time" [] (Float (LogisticRegression.time_fin1 r)) ]
        ++ between
        ++ [ Call time "process_time" [] (Float (LogisticRegression.time_ini2 r));
             Call tensorflow "Session.run" [sess; tf_d] temp2;
             Call time "process_time" [] (Float (LogisticRegression.time_fin2 r)) ]
        ++ after
    ∧ Forall (λ e, activity e ≠ Some Spec.Timing) (before ++ between ++ after)
    ∧ Forall (λ e, activity e = Some Spec.Printing) between.

(** The calls of the member [member] of [tensorflow], each with its
    arguments and its result. *)
Definition tensorflow_calls (member : string) (t : list Event)
  : list (list Val * Val) :=
  omap (λ e, match e with
             | Call tensorflow m arguments result =>
                 if String.eqb m member then Some (arguments, result) else None
             | _ => None
             end) t.

(** The members of [tf_seal] called, in the order of the calls. *)
Definition tf_seal_calls (t : list Event) : list string :=
  omap (λ e, match e with Call tf_seal member _ _ => Some member | _ => None end)
       t.

End Dataflow.

(** * Properties *)

(** ** [str2bool] *)

Module HETransformerFacts.
Import Py HETransformer.

Lemma lower_lower_ascii (c : ascii) : lower_ascii (lower_ascii c) = lower_ascii c.
Proof. destruct c as [[] [] [] [] [] [] [] []]; reflexivity. Qed.

Lemma lower_idempotent (s : string) : lower (lower s) = lower s.
Proof.
  induction s as [|c s IH]; simpl; [reflexivity|].
  now rewrite lower_lower_ascii, IH.
Qed.

Lemma in_tuple_In (x : string) (t : list string) :
  in_tuple x t = true ↔ In x t.
Proof.
  unfold in_tuple. rewrite existsb_exists. split.
  - intros (y & Hy & Heq). apply String.eqb_eq in Heq. now subst.
  - intros H. exists x. split; [assumption | apply String.eqb_refl].
Qed.

Lemma in_tuple_not_In (x : string) (t : list string) :
  in_tuple x t = false ↔ ¬ In x t.
Proof.
  rewrite <- in_tuple_In. destruct (in_tuple x t); split; congruence.
Qed.

(** No word is in both tuples. *)
Lemma falsy_not_truthy (x : string) : In x falsy → in_tuple x truthy = false.
Proof.
  unfold falsy. simpl.
  intros [<-|[<-|[<-|[<-|[<-|[<-|[]]]]]]]; reflexivity.
Qed.

(** [str2bool] on a string is a function of its lower-case form. *)
Lemma str2bool_lower (s : string) :
  str2bool (PyStr s) =
    if in_tuple (lower s) truthy then Return (PyBool true)
    else if in_tuple (lower s) falsy then Return (PyBool false)
    else Raise (ArgumentTypeError "Boolean value expected.").
Proof. reflexivity. Qed.

Lemma str2bool_raises_iff (s : string) :
  (∃ e, str2bool (PyStr s) = Raise e) ↔
  (¬ In (lower s) truthy ∧ ¬ In (lower s) falsy).
Proof.
  rewrite str2bool_lower, <- !in_tuple_not_In.
  destruct (in_tuple (lower s) truthy), (in_tuple (lower s) falsy); split;
    try (intros [e He]; discriminate);
    try (intros [? ?]; discriminate);
    eauto.
Qed.

(** C7: [str2bool] returns a bool unchanged; on a string it returns [True]
    when the lower-case form is one of "on", "yes", "true", "t", "y", "1",
    [False] when it is one of "off", "no", "false", "f", "n", "0", and raises
    [ArgumentTypeError] otherwise; an exception is raised exactly when the
    lower-case form is in neither tuple, and the result depends on the string
    only through its lower-case form. *)
Theorem str2bool_spec (v : value) :
  match v with
  | PyBool b => str2bool v = Return v
  | PyStr s =>
      (In (lower s) ["on"; "yes"; "true"; "t"; "y"; "1"] →
         str2bool v = Return (PyBool true))
      ∧ (In (lower s) ["off"; "no"; "false"; "f"; "n"; "0"] →
         str2bool v = Return (PyBool false))
      ∧ (¬ In (lower s) ["on"; "yes"; "true"; "t"; "y"; "1"] →
         ¬ In (lower s) ["off"; "no"; "false"; "f"; "n"; "0"] →
         str2bool v = Raise (ArgumentTypeError "Boolean value expected."))
      ∧ ((∃ e, str2bool v = Raise e) ↔
           (¬ In (lower s) ["on"; "yes"; "true"; "t"; "y"; "1"]
            ∧ ¬ In (lower s) ["off"; "no"; "false"; "f"; "n"; "0"]))
      ∧ (∀ s', lower s' = lower s → str2bool (PyStr s') = str2bool v)
      ∧ str2bool (PyStr (lower s)) = str2bool v
  end.
Proof.
  destruct v as [b|s]; [reflexivity|].
  fold truthy falsy.
  split; [|split; [|split; [|split; [|split]]]].
  - intros H. rewrite str2bool_lower.
    apply in_tuple_In in H. now rewrite H.
  - intros H. rewrite str2bool_lower.
    rewrite (falsy_not_truthy _ H).
    apply in_tuple_In in H. now rewrite H.
  - intros Ht Hf. rewrite str2bool_lower.
    apply in_tuple_not_In in Ht, Hf. now rewrite Ht, Hf.
  - apply str2bool_raises_iff.
  - intros s' Heq. rewrite !str2bool_lower. now rewrite Heq.
  - rewrite !str2bool_lower. now rewrite lower_idempotent.
Qed.

Example str2bool_Yes : str2bool (PyStr "Yes") = Return (PyBool true).
Proof. reflexivity. Qed.

Example str2bool_OFF : str2bool (PyStr "OFF") = Return (PyBool false).
Proof. reflexivity. Qed.

Example str2bool_bool : str2bool (PyBool false) = Return (PyBool false).
Proof. reflexivity. Qed.

(** *** [server_config_from_flags] *)

Lemma server_config_parameters (FLAGS : Flags) (tensor_param_name : string) :
  optimizer_parameters "ngraph-optimizer"
    (server_config_from_flags FLAGS tensor_param_name)
  = Some (if enable_client FLAGS
          then <[tensor_param_name := {| attr_s := encode "client_input" |}]>
                 (base_parameters FLAGS)
          else base_parameters FLAGS).
Proof. destruct FLAGS as [bs [] b ep]; reflexivity. Qed.

Lemma server_config_rewriter (FLAGS : Flags) (tensor_param_name : string) :
  let r := rewrite_options
             (graph_options (server_config_from_flags FLAGS tensor_param_name)) in
  meta_optimizer_iterations r = ONE ∧ min_graph_nodes r = (-1)%Z
  ∧ length (custom_optimizers r) = 1%nat.
Proof. destruct FLAGS as [bs [] b ep]; repeat split. Qed.

Lemma base_parameters_fixed (FLAGS : Flags) :
  binds (base_parameters FLAGS) "ngraph_backend" (encode (backend FLAGS))
  ∧ binds (base_parameters FLAGS) "device_id" []
  ∧ binds (base_parameters FLAGS) "encryption_parameters"
      (encode (encryption_parameters FLAGS))
  ∧ binds (base_parameters FLAGS) "enable_client"
      (encode (str_of_bool (enable_client FLAGS))).
Proof.
  unfold binds, base_parameters. repeat split; by simplify_map_eq.
Qed.

Lemma base_parameters_other (FLAGS : Flags) (k : string) :
  ¬ In k fixed_keys → base_parameters FLAGS !! k = None.
Proof.
  unfold fixed_keys, base_parameters. simpl. intros H.
  rewrite !lookup_insert_ne by (intros <-; tauto).
  apply lookup_empty.
Qed.

(** C8, as amended: when [tensor_param_name] is none of the four keys the
    function always writes, the parameter map of the "ngraph-optimizer" entry
    of the returned configuration binds "ngraph_backend" to the encoded
    backend, "device_id" to the empty byte string, "encryption_parameters" to
    the encoded encryption parameters and "enable_client" to the encoded
    [str(FLAGS.enable_client)], and it binds [tensor_param_name] to
    b"client_input" exactly when [FLAGS.enable_client] is true. *)
Theorem server_config_from_flags_spec (FLAGS : Flags) (tensor_param_name : string) :
  ¬ In tensor_param_name fixed_keys →
  server_config_expected FLAGS tensor_param_name
    (server_config_from_flags FLAGS tensor_param_name).
Proof.
  intros Hfresh.
  pose proof (base_parameters_fixed FLAGS) as (Hb & Hd & He & Hc).
  pose proof (base_parameters_other FLAGS _ Hfresh) as Hnone.
  eexists. split; [apply server_config_parameters|].
  unfold binds in *.
  destruct (enable_client FLAGS) eqn:Hen.
  - assert (∀ k, In k fixed_keys → tensor_param_name ≠ k) as Hne
      by (intros k Hk ->; contradiction).
    rewrite !lookup_insert_ne by (apply Hne; simpl; tauto).
    rewrite lookup_insert_eq. tauto.
  - rewrite Hnone. repeat split; try assumption; discriminate.
Qed.

(** The call [main] makes: the placeholder name, with the client enabled. *)
Lemma server_config_from_flags_spec_witness :
  ¬ In a_name fixed_keys
  ∧ server_config_expected
      {| batch_size := 1; enable_client := true;
         backend := "HE_SEAL"; encryption_parameters := "params.json" |}
      a_name
      (server_config_from_flags
         {| batch_size := 1; enable_client := true;
            backend := "HE_SEAL"; encryption_parameters := "params.json" |}
         a_name).
Proof.
  assert (¬ In a_name fixed_keys) as H.
  { unfold a_name, fixed_keys. simpl.
    intros [H|[H|[H|[H|[]]]]]; discriminate H. }
  split; [exact H | apply (server_config_from_flags_spec _ _ H)].
Defined.

(** C8, as stated, fails when [tensor_param_name] is one of the fixed keys:
    with the client enabled and "device_id" as the tensor name, "device_id"
    is bound to b"client_input", not to the empty byte string. *)
Lemma server_config_device_id_overwritten :
  ¬ server_config_expected
      {| batch_size := 1; enable_client := true;
         backend := "HE_SEAL"; encryption_parameters := EmptyString |}
      "device_id"
      (server_config_from_flags
         {| batch_size := 1; enable_client := true;
            backend := "HE_SEAL"; encryption_parameters := EmptyString |}
         "device_id").
Proof.
  intros (pm & Hpm & _ & Hdev & _).
  rewrite server_config_parameters in Hpm. simpl in Hpm.
  injection Hpm as <-.
  unfold binds in Hdev. rewrite lookup_insert_eq in Hdev.
  discriminate Hdev.
Qed.

(** The same input, evaluated. *)
Example server_config_device_id_value :
  ∃ pm,
    optimizer_parameters "ngraph-optimizer"
      (server_config_from_flags
         {| batch_size := 1; enable_client := true;
            backend := "HE_SEAL"; encryption_parameters := EmptyString |}
         "device_id") = Some pm
    ∧ pm !! "device_id" = Some {| attr_s := encode "client_input" |}.
Proof.
  eexists. split; [apply server_config_parameters|].
  simpl. apply lookup_insert_eq.
Qed.

End HETransformerFacts.

(** ** The sum as a matrix product *)

Module MatrixFacts.
Import TFSeal.

Section Sum.
Context {R : Type} (zero one : R) (add mul : R → R → R).
Hypothesis add_0_l : ∀ x, add zero x = x.
Hypothesis mul_1_r : ∀ x, mul x one = x.

Lemma dot_ones_2 (x y : R) : dot zero add mul [x; y] [one; one] = add x y.
Proof using add_0_l mul_1_r.
  unfold dot. simpl. now rewrite !mul_1_r, add_0_l.
Qed.

Lemma matmul_row_ones (x y : R) :
  matmul zero add mul [[x; y]] (ones one 2 1) = Some [[add x y]].
Proof using add_0_l mul_1_r.
  unfold matmul. simpl. now rewrite dot_ones_2.
Qed.

Lemma shape_1_2 (a : matrix) :
  has_shape 1 2 a = true → a = [[entry zero a 0 0; entry zero a 0 1]].
Proof using Type.
  unfold has_shape. intros H. apply andb_prop in H as [Hr Hc].
  destruct a as [|r [|r' a]]; try discriminate Hr.
  simpl in Hc. rewrite andb_true_r in Hc.
  destruct r as [|x [|y [|z r]]]; try discriminate Hc.
  reflexivity.
Qed.

(** C9: for every 1x2 matrix [a], the product of [a] with the 2x1 matrix
    of ones is the 1x1 matrix whose entry is [a[0][0] + a[0][1]]. *)
Theorem matmul_ones_is_sum (a : matrix) :
  has_shape 1 2 a = true →
  matmul zero add mul a (ones one 2 1)
  = Some [[add (entry zero a 0 0) (entry zero a 0 1)]].
Proof using add_0_l mul_1_r.
  intros H. rewrite (shape_1_2 a H) at 1. apply matmul_row_ones.
Qed.
End Sum.

(** The printed [a_plain] of the notebook, scaled to integers. *)
Lemma matmul_ones_is_sum_witness :
  (∀ x : Z, (0 + x)%Z = x) ∧ (∀ x : Z, (x * 1)%Z = x)
  ∧ has_shape 1 2 [[33529496; 4337829]]%Z = true
  ∧ matmul 0%Z Z.add Z.mul [[33529496; 4337829]]%Z (ones 1%Z 2 1)
    = Some [[37867325]]%Z.
Proof.
  split; [exact Z.add_0_l|]. split; [exact Z.mul_1_r|]. split; [reflexivity|].
  exact (matmul_ones_is_sum 0%Z 1%Z Z.add Z.mul Z.add_0_l Z.mul_1_r
           [[33529496; 4337829]]%Z eq_refl).
Defined.

(** [b.transpose()] for the ones column is the ones row, the operand
    [tfs.matmul] is given. *)
Lemma transpose_ones_2_1 {R : Type} (zero one : R) :
  transpose zero (ones one 2 1) = ones one 1 2.
Proof. reflexivity. Qed.

End MatrixFacts.

(** ** The traces of the C# programs *)

Module CSharpFacts.
Import CSharp Spec.

(** What is left of a run of the setup is the run of the rest of the scope
    from [heap0], between the setup calls and the disposals. *)
Lemma with_setup_trace (rest : Env → M unit) :
  trace (with_setup rest) = setup_calls ++ snd (rest env0 heap0) ++ disposals.
Proof.
  unfold trace. cbv -[app].
  destruct (rest _ _) as [[[] h] t]. simpl.
  rewrite <- !app_assoc. reflexivity.
Qed.

Lemma round_run (env : Env) (h : Heap) :
  round env h =
    (tt, h,
     [ Encode (encoder env) e_12 (scale env) (xPlain env);
       Encrypt (encryptor env) (xPlain env) (x1Encrypted env);
       Decrypt (decryptor env) (x1Encrypted env) (plainResult env);
       Decode (encoder env) (plainResult env) (result env) ]).
Proof. reflexivity. Qed.

(** A loop whose body makes the same calls and leaves the heap alone. *)
Lemma for_from_run (body : nat → M unit) (t : list Call) :
  (∀ i h, body i h = (tt, h, t)) →
  ∀ n i h, for_from i n body h = (tt, h, concat (replicate n t)).
Proof.
  intros Hbody. induction n as [|n IH]; intros i h; simpl.
  - reflexivity.
  - unfold mbind, M_bind, bind. rewrite Hbody, IH. reflexivity.
Qed.

Lemma loop_run (n : nat) (h : Heap) :
  for_ n (λ _, round env0) h = (tt, h, concat (replicate n round_calls)).
Proof.
  unfold for_. apply for_from_run. intros i h'. apply round_run.
Qed.

Lemma timed_run (body : M unit) (t : list Call) :
  (∀ h, body h = (tt, h, t)) →
  timed body heap0
  = (tt, {| next := 13; parameters := parameters heap0 |},
     [New_Stopwatch 12; Stopwatch_Start 12] ++ t ++ [Stopwatch_Stop 12]).
Proof.
  intros Hbody. unfold timed, new, mbind, M_bind, bind, fresh, call, ret.
  simpl. rewrite Hbody. reflexivity.
Qed.

(** Rest of a scope: a timed or untimed body, then calls that only print. *)
Lemma untimed_rest_trace (out : M unit) (t_out : list Call) :
  (∀ h, out h = (tt, h, t_out)) →
  snd ((round env0;; out) heap0) = concat (replicate 1 round_calls) ++ t_out.
Proof.
  intros Hout. unfold mbind, M_bind, bind.
  rewrite round_run, Hout. reflexivity.
Qed.

Lemma timed_rest_trace (body out : M unit) (t t_out : list Call) :
  (∀ h, body h = (tt, h, t)) →
  (∀ h, out h = (tt, h, t_out)) →
  snd ((timed body;; out) heap0)
  = [New_Stopwatch 12; Stopwatch_Start 12] ++ t ++ [Stopwatch_Stop 12] ++ t_out.
Proof.
  intros Hbody Hout. unfold mbind at 1. unfold M_bind, bind.
  rewrite (timed_run body t Hbody), Hout. simpl.
  now rewrite <- app_assoc.
Qed.

Lemma round_once_run (h : Heap) :
  round env0 h = (tt, h, concat (replicate 1 round_calls)).
Proof. reflexivity. Qed.

Ltac program_trace :=
  intros; rewrite with_setup_trace; cbn beta; unfold shape, scope_calls;
  first
    [ erewrite untimed_rest_trace by (intros; reflexivity)
    | erewrite timed_rest_trace
        by first [ apply round_once_run | apply loop_run | intros; reflexivity ] ];
  rewrite <- ?app_assoc; reflexivity.

Lemma In46_trace (w : World) :
  trace (In46.test.Main w)
  = shape false 1
      [ Console_WriteLine [Dbl e_12 None];
        Console_WriteLine [Dbl (result_0 w) None] ].
Proof. unfold In46.test.Main. program_trace. Qed.

Lemma In47_trace (w : World) :
  trace (In47.test.Main w)
  = shape true 1
      [ Console_WriteLine [Dbl e_12 None];
        Console_WriteLine [Dbl (result_0 w) None];
        Console_WriteLine
          [Str "Time taken: "; Lng (ElapsedMilliseconds w); Str "ms"] ].
Proof. unfold In47.test.Main. program_trace. Qed.

Lemma In48_trace (w : World) :
  trace (In48.test.Main w)
  = shape true loop_count
      [ Console_WriteLine [Dbl e_12 None];
        Console_WriteLine [Dbl (result_0 w) None];
        Console_WriteLine
          [Str "Average Time taken: ";
           Dbl (average_of_milliseconds (ElapsedMilliseconds w)) None;
           Str "ms"] ].
Proof. unfold In48.test.Main. program_trace. Qed.

Lemma In16_trace (w : World) :
  trace (In16.test.Main w)
  = shape false 1
      [ Console_WriteLine [Str "Original: "; Dbl e_12 None];
        Console_WriteLine
          [Str "Enc/Dec:  "; Dbl (result_0 w) (Some "#.############")] ].
Proof. unfold In16.test.Main. program_trace. Qed.

Lemma In23_trace (w : World) :
  trace (In23.test.Main w)
  = shape true 1
      [ Console_WriteLine [Str "Original:   "; Dbl e_12 None];
        Console_WriteLine
          [Str "Enc/Dec:    "; Dbl (result_0 w) (Some "#.############")];
        Console_WriteLine
          [Str "Time taken: ";
           Dbl (milliseconds_of_ticks (ElapsedTicks w) (Frequency w)) None;
           Str "ms"] ].
Proof. unfold In23.test.Main. program_trace. Qed.

Lemma In25_trace (w : World) :
  trace (In25.test.Main w)
  = shape true loop_count
      [ Console_WriteLine [Str "Original:   "; Dbl e_12 None];
        Console_WriteLine
          [Str "Enc/Dec:    "; Dbl (result_0 w) (Some "#.############")];
        Console_WriteLine
          [Str "Time taken: ";
           Dbl (average_of_ticks (ElapsedTicks w) (Frequency w)) (Some "##.###");
           Str "ms on average per enc/dec"] ].
Proof. unfold In25.test.Main. program_trace. Qed.

Lemma Handle_Clicked_trace (w : World) :
  trace (MainPage.Handle_Clicked w)
  = shape true loop_count
      [ Set_labelText
          [Str "Original: "; Dbl e_12 None;
           Str (Py.nl +:+ "Enc/Dec: "); Dbl (result_0 w) (Some "#.############");
           Str (Py.nl +:+ "Time taken: ");
           Dbl (average_of_ticks (ElapsedTicks w) (Frequency w)) (Some "##.###");
           Str "ms on average per enc/dec"];
        OnPropertyChanged "LabelText" ].
Proof. unfold MainPage.Handle_Clicked, MainPage.set_LabelText. program_trace. Qed.

(** Every program has traces of the common form, with one round or
    [loop_count] rounds whatever it reads back, and an output part that only
    prints. *)
Lemma programs_shape (p : World → M unit) :
  In p programs →
  ∃ stopwatch n,
    (n = 1%nat ∨ n = loop_count)
    ∧ ∀ w, ∃ output,
        trace (p w) = shape stopwatch n output
        ∧ Forall (λ c, is_output c = true) output.
Proof.
  unfold programs. simpl.
  intros [<-|[<-|[<-|[<-|[<-|[<-|[<-|[]]]]]]]].
  - exists false, 1%nat. split; [by left|]. intros w. eexists.
    split; [apply In46_trace | by repeat constructor].
  - exists true, 1%nat. split; [by left|]. intros w. eexists.
    split; [apply In47_trace | by repeat constructor].
  - exists true, loop_count. split; [by right|]. intros w. eexists.
    split; [apply In48_trace | by repeat constructor].
  - exists false, 1%nat. split; [by left|]. intros w. eexists.
    split; [apply In16_trace | by repeat constructor].
  - exists true, 1%nat. split; [by left|]. intros w. eexists.
    split; [apply In23_trace | by repeat constructor].
  - exists true, loop_count. split; [by right|]. intros w. eexists.
    split; [apply In25_trace | by repeat constructor].
  - exists true, loop_count. split; [by right|]. intros w. eexists.
    split; [apply Handle_Clicked_trace | by repeat constructor].
Qed.

(** *** Properties of the common form *)

Lemma Forall_rounds (P : Call → Prop) (n : nat) :
  Forall P round_calls → Forall P (concat (replicate n round_calls)).
Proof.
  intros H. induction n as [|n IH]; cbn [replicate concat].
  - constructor.
  - apply Forall_app. split; [exact H | exact IH].
Qed.

Lemma Forall_scope (P : Call → Prop) (stopwatch : bool) (n : nat)
    (output : list Call) :
  Forall P [New_Stopwatch 12; Stopwatch_Start 12; Stopwatch_Stop 12] →
  Forall P round_calls →
  Forall P output →
  Forall P disposals →
  Forall P (scope_calls stopwatch n output).
Proof.
  intros Hw Hr Ho Hd. unfold scope_calls.
  inversion Hw as [|? ? Hw1 Hw']; subst.
  inversion Hw' as [|? ? Hw2 Hw'']; subst.
  repeat (apply Forall_app; split); try assumption.
  - destruct stopwatch; repeat constructor; assumption.
  - by apply Forall_rounds.
  - destruct stopwatch; [assumption | constructor].
Qed.

Lemma Forall_shape (P : Call → Prop) (stopwatch : bool) (n : nat)
    (output : list Call) :
  Forall P setup_calls →
  Forall P [New_Stopwatch 12; Stopwatch_Start 12; Stopwatch_Stop 12] →
  Forall P round_calls →
  Forall P output →
  Forall P disposals →
  Forall P (shape stopwatch n output).
Proof.
  intros Hs Hw Hr Ho Hd. unfold shape.
  apply Forall_app. split; [assumption | by apply Forall_scope].
Qed.

(** Where a list splits at an element that its first part does not have. *)
Lemma split_after (P : Call → Prop) (A L t1 t2 : list Call) (x : Call) :
  Forall (λ c, ¬ P c) A → P x →
  A ++ L = t1 ++ x :: t2 →
  ∃ t1', t1 = A ++ t1' ∧ L = t1' ++ x :: t2.
Proof.
  intros HA Hx. revert t1.
  induction A as [|a A IH]; intros t1 Heq; simpl in *.
  - by exists t1.
  - inversion HA as [|? ? Ha HA']; subst.
    destruct t1 as [|b t1]; simpl in Heq.
    + injection Heq as -> _. contradiction.
    + injection Heq as -> Heq.
      destruct (IH HA' t1 Heq) as (t1' & -> & HL).
      by exists t1'.
Qed.

(** Printing calls are none of the calls the properties look for. *)
Lemma output_only (P : Call → Prop) (output : list Call) :
  (∀ c, is_output c = true → P c) →
  Forall (λ c, is_output c = true) output → Forall P output.
Proof. intros HP Ho. eapply Forall_impl; [exact Ho | exact HP]. Qed.

Ltac by_cases_on_call :=
  let c := fresh "c" in
  intros c; destruct c; simpl; intros; (discriminate || tauto || reflexivity).

(** *** The order of the calls *)

Lemma shape_setup_in_order (stopwatch : bool) (n : nat) (output : list Call) :
  Forall (λ c, is_output c = true) output →
  setup_in_order (shape stopwatch n output).
Proof.
  intros Ho. unfold setup_in_order.
  exists 0%nat, CKKS,
    [ Set_PolyModulusDegree 0 8192;
      CoeffModulus_Create 8192 [60; 40; 40; 60]%Z;
      Set_CoeffModulus 0 {| cm_poly_modulus_degree := 8192;
                            cm_bit_sizes := [60; 40; 40; 60]%Z |};
      Math_Pow 2 40 ],
    1%nat, (Some ckks_parameters), [Console_WriteLine []], 2%nat,
    ([ Get_PublicKey 3 2; Get_SecretKey 4 2; New_Encryptor 5 1 3;
       New_Decryptor 6 1 4; New_CKKSEncoder 7 1; New_Plaintext 8;
       New_Plaintext 9; New_Ciphertext 10; New_List 11 ]
     ++ scope_calls stopwatch n output).
  split; [reflexivity|]. split.
  - repeat constructor.
  - apply Forall_app. split; [repeat constructor|].
    apply Forall_scope; try (repeat constructor).
    apply output_only; [by_cases_on_call | exact Ho].
Qed.

Lemma omap_rounds (n : nat) :
  omap round_operation (concat (replicate n round_calls))
  = concat (replicate n round_operations).
Proof.
  induction n as [|n IH]; cbn [replicate concat]; [reflexivity|].
  rewrite omap_app, IH. reflexivity.
Qed.

Lemma omap_output {A} (f : Call → option A) (output : list Call) :
  (∀ c, is_output c = true → f c = None) →
  Forall (λ c, is_output c = true) output → omap f output = [].
Proof.
  intros Hf Ho. induction Ho as [|c l Hc Hl IH]; [reflexivity|].
  simpl. rewrite (Hf c Hc). exact IH.
Qed.

Lemma shape_rounds_in_order (stopwatch : bool) (n : nat) (output : list Call) :
  Forall (λ c, is_output c = true) output →
  rounds_in_order n (shape stopwatch n output).
Proof.
  intros Ho. unfold rounds_in_order, shape, scope_calls.
  rewrite !omap_app, omap_rounds.
  rewrite (omap_output round_operation output) by (by_cases_on_call || exact Ho).
  destruct stopwatch; simpl; by rewrite app_nil_r.
Qed.

Lemma shape_decrypt_after_encrypt (stopwatch : bool) (n : nat)
    (output : list Call) :
  Forall (λ c, is_output c = true) output →
  decrypt_after_encrypt (shape stopwatch (S n) output).
Proof.
  intros Ho t1 t2 d c p Heq.
  (* every [Decrypt] of the trace reads the ciphertext 10 *)
  assert (c = 10%nat) as ->.
  { assert (Forall (λ x, match x with Decrypt _ y _ => y = 10%nat | _ => True end)
              (shape stopwatch (S n) output)) as Hall.
    { apply Forall_shape; try (repeat constructor).
      apply output_only; [by_cases_on_call | exact Ho]. }
    rewrite Heq in Hall. apply Forall_app in Hall as [_ Hall].
    by inversion Hall. }
  (* and the first [Encrypt] comes before any [Decrypt] *)
  set (A := setup_calls
            ++ (if stopwatch then [New_Stopwatch 12; Stopwatch_Start 12] else [])
            ++ [Encode 7 e_12 two_pow_40 8; Encrypt 5 8 10]).
  assert (∃ L, shape stopwatch (S n) output = A ++ L) as [L HL].
  { unfold shape, scope_calls, A. cbn [replicate concat].
    destruct stopwatch; eexists; reflexivity. }
  rewrite HL in Heq.
  apply (split_after (λ x, match x with Decrypt _ _ _ => True | _ => False end))
    in Heq as (t1' & -> & _); [| |exact I].
  - exists 5%nat, 8%nat. unfold A. rewrite !elem_of_app. left. right. right.
    apply list_elem_of_In. simpl. tauto.
  - unfold A. destruct stopwatch; repeat constructor; tauto.
Qed.

(** C3: in every C# program the [EncryptionParameters] object is built
    first, then the [SEALContext] from it, then one [KeyGenerator] from that
    context, before any encryption and never again; the rounds are [Encode],
    [Encrypt], [Decrypt], [Decode] in that order, once or a thousand times;
    and a ciphertext is decrypted only after [Encrypt] has written it. *)
Theorem fixed_call_sequence (p : World → M unit) (w : World) :
  In p programs →
  setup_in_order (trace (p w))
  ∧ (∃ n, (n = 1%nat ∨ n = 1000%nat) ∧ rounds_in_order n (trace (p w)))
  ∧ decrypt_after_encrypt (trace (p w)).
Proof.
  intros Hp.
  destruct (programs_shape p Hp) as (sw & n & Hn & Hshape).
  destruct (Hshape w) as (out & -> & Ho).
  split; [by apply shape_setup_in_order|]. split.
  - exists n. split; [exact Hn | by apply shape_rounds_in_order].
  - destruct Hn as [-> | ->]; by apply shape_decrypt_after_encrypt.
Qed.

Lemma fixed_call_sequence_witness :
  In In48.test.Main programs
  ∧ setup_in_order (trace (In48.test.Main sample_world))
  ∧ (∃ n, (n = 1%nat ∨ n = 1000%nat)
          ∧ rounds_in_order n (trace (In48.test.Main sample_world)))
  ∧ decrypt_after_encrypt (trace (In48.test.Main sample_world)).
Proof.
  assert (In In48.test.Main programs) as H by (simpl; tauto).
  split; [exact H | exact (fixed_call_sequence _ sample_world H)].
Defined.

(** *** The parameters of the contexts *)

Lemma shape_context_invariant (stopwatch : bool) (n : nat) (output : list Call) :
  Forall (λ c, is_output c = true) output →
  context_invariant (shape stopwatch n output).
Proof.
  intros Ho. unfold context_invariant.
  split; [|split; [|split]].
  - exists 1%nat, 0%nat, (Some ckks_parameters).
    unfold shape. apply elem_of_app. left.
    apply list_elem_of_In. simpl. tauto.
  - intros context parms snapshot Hin.
    assert (Forall (λ x, match x with
                         | New_SEALContext _ _ s => s = Some ckks_parameters
                         | _ => True
                         end) (shape stopwatch n output)) as Hall.
    { apply Forall_shape; try (repeat constructor).
      apply output_only; [by_cases_on_call | exact Ho]. }
    rewrite Forall_forall in Hall. exact (Hall _ Hin).
  - intros encoder value scale destination Hin.
    assert (Forall (λ x, match x with
                         | Encode _ _ s _ => s = two_pow_40
                         | _ => True
                         end) (shape stopwatch n output)) as Hall.
    { apply Forall_shape; try (repeat constructor).
      apply output_only; [by_cases_on_call | exact Ho]. }
    rewrite Forall_forall in Hall. exact (Hall _ Hin).
  - intros t1 t2 context parms snapshot Heq.
    set (A := [ New_EncryptionParameters 0 CKKS;
                Set_PolyModulusDegree 0 8192;
                CoeffModulus_Create 8192 [60; 40; 40; 60]%Z;
                Set_CoeffModulus 0 {| cm_poly_modulus_degree := 8192;
                                      cm_bit_sizes := [60; 40; 40; 60]%Z |};
                Math_Pow 2 40 ]).
    set (R := [ Console_WriteLine []; New_KeyGenerator 2 1; Get_PublicKey 3 2;
                Get_SecretKey 4 2; New_Encryptor 5 1 3; New_Decryptor 6 1 4;
                New_CKKSEncoder 7 1; New_Plaintext 8; New_Plaintext 9;
                New_Ciphertext 10; New_List 11 ]
              ++ scope_calls stopwatch n output).
    (* after the context: neither an assignment to the parameters nor
       another context *)
    assert (Forall (λ x, modifies_parameters x = false
                         ∧ match x with
                           | New_SEALContext _ _ _ => False
                           | _ => True
                           end) R) as HR.
    { unfold R. apply Forall_app. split; [repeat constructor|].
      apply Forall_scope; try (repeat constructor).
      apply output_only; [by_cases_on_call | exact Ho]. }
    change (shape stopwatch n output)
      with (A ++ New_SEALContext 1 0 (Some ckks_parameters) :: R) in Heq.
    apply (split_after (λ x, match x with
                             | New_SEALContext _ _ _ => True
                             | _ => False
                             end)) in Heq as (t1' & -> & Heq);
      [| unfold A; repeat constructor; tauto | exact I].
    destruct t1' as [|x t1']; simpl in Heq.
    + apply (f_equal tail) in Heq. simpl in Heq. rewrite <- Heq.
      eapply Forall_impl; [exact HR|]. by intros x [? _].
    + apply (f_equal tail) in Heq. simpl in Heq. rewrite Heq in HR.
      apply Forall_app in HR as [_ HR].
      inversion HR as [|? ? Hx _]. destruct Hx as [_ []].
Qed.

(** C5: every [SEALContext] a C# program builds is built from the CKKS
    scheme with polynomial modulus degree 8192 and the coefficient modulus
    created from the bit sizes 60, 40, 40, 60; every [Encode] uses the scale
    2^40; and after the context is built nothing assigns to the parameters. *)
Theorem parameters_invariant (p : World → M unit) (w : World) :
  In p programs → context_invariant (trace (p w)).
Proof.
  intros Hp.
  destruct (programs_shape p Hp) as (sw & n & _ & Hshape).
  destruct (Hshape w) as (out & -> & Ho).
  by apply shape_context_invariant.
Qed.

Lemma parameters_invariant_witness :
  In MainPage.Handle_Clicked programs
  ∧ context_invariant (trace (MainPage.Handle_Clicked sample_world)).
Proof.
  assert (In MainPage.Handle_Clicked programs) as H by (simpl; tauto).
  split; [exact H | exact (parameters_invariant _ sample_world H)].
Defined.

(** *** The SEAL calls of the variants *)

Lemma seal_calls_rounds (n : nat) :
  seal_calls (concat (replicate n round_calls)) = concat (replicate n round_calls).
Proof.
  unfold seal_calls.
  induction n as [|n IH]; cbn [replicate concat]; [reflexivity|].
  rewrite List.filter_app, IH. reflexivity.
Qed.

Lemma seal_calls_output (output : list Call) :
  Forall (λ c, is_output c = true) output → seal_calls output = [].
Proof.
  intros Ho. unfold seal_calls.
  induction Ho as [|c l Hc Hl IH]; [reflexivity|].
  simpl. destruct c; try discriminate Hc; exact IH.
Qed.

Lemma seal_calls_shape (stopwatch : bool) (n : nat) (output : list Call) :
  Forall (λ c, is_output c = true) output →
  seal_calls (shape stopwatch n output) = seal_shape n.
Proof.
  intros Ho. unfold shape, scope_calls, seal_shape.
  pose proof (seal_calls_rounds n) as Hr.
  pose proof (seal_calls_output output Ho) as Hout.
  unfold seal_calls in *.
  rewrite !List.filter_app, Hr, Hout.
  destruct stopwatch; reflexivity.
Qed.

Lemma elem_of_rounds (c : Call) (n : nat) :
  c ∈ concat (replicate (S n) round_calls) ↔ c ∈ round_calls.
Proof.
  induction n as [|n IH].
  - cbn [replicate concat]. by rewrite app_nil_r.
  - change (replicate (S (S n)) round_calls)
      with (round_calls :: replicate (S n) round_calls).
    cbn [concat]. rewrite elem_of_app, IH. tauto.
Qed.

(** The same calls, with the same arguments, whatever the number of rounds. *)
Lemma elem_of_seal_shape (c : Call) (n m : nat) :
  c ∈ seal_shape (S n) ↔ c ∈ seal_shape (S m).
Proof.
  unfold seal_shape. rewrite !elem_of_app, !elem_of_rounds. tauto.
Qed.

Lemma length_seal_shape (n : nat) :
  length (seal_shape n) = (25 + 4 * n)%nat.
Proof.
  unfold seal_shape. rewrite !length_app.
  assert (length (concat (replicate n round_calls)) = (4 * n)%nat) as ->.
  { induction n as [|n IH]; cbn [replicate concat]; [reflexivity|].
    rewrite length_app, IH. simpl. lia. }
  change (length (seal_calls setup_calls)) with 14%nat.
  change (length disposals) with 11%nat. lia.
Qed.

(** C6, as amended: the untimed program, the stopwatch-timed programs and
    their later rewrites make the same SEAL calls with the same arguments,
    in the same order; the looped programs and [Handle_Clicked] make the
    same setup calls and disposals, and between them the same round of four
    calls a thousand times instead of once; so every program makes the same
    set of SEAL calls with the same arguments, and the stopwatch and the
    output add none. *)
Theorem timed_variants_refine (w : World) :
  let untimed := seal_calls (trace (In46.test.Main w)) in
  untimed = seal_shape 1
  ∧ seal_calls (trace (In47.test.Main w)) = untimed
  ∧ seal_calls (trace (In16.test.Main w)) = untimed
  ∧ seal_calls (trace (In23.test.Main w)) = untimed
  ∧ seal_calls (trace (In48.test.Main w)) = seal_shape 1000
  ∧ seal_calls (trace (In25.test.Main w)) = seal_shape 1000
  ∧ seal_calls (trace (MainPage.Handle_Clicked w)) = seal_shape 1000
  ∧ Forall (λ p, ∀ c, c ∈ seal_calls (trace (p w)) ↔ c ∈ untimed) programs
  ∧ Forall (λ c, match c with
                 | Encode _ value scale _ => value = e_12 ∧ scale = two_pow_40
                 | New_SEALContext _ _ snapshot => snapshot = Some ckks_parameters
                 | _ => True
                 end) untimed.
Proof.
  cbn zeta.
  rewrite In46_trace, In47_trace, In16_trace, In23_trace, In48_trace,
    In25_trace, Handle_Clicked_trace.
  rewrite !seal_calls_shape by (by repeat constructor).
  repeat split.
  - apply Forall_forall. intros p Hp c.
    apply list_elem_of_In in Hp.
    destruct (programs_shape p Hp) as (sw & n & Hn & Hshape).
    destruct (Hshape w) as (out & -> & Ho).
    rewrite seal_calls_shape by exact Ho.
    destruct Hn as [-> | ->]; [tauto | apply elem_of_seal_shape].
  - repeat constructor.
Qed.

(** C6, as stated, fails for the loop: the looped program makes 4025 SEAL
    calls where the untimed one makes 29. *)
Lemma looped_makes_more_calls :
  seal_calls (trace (In48.test.Main sample_world))
  ≠ seal_calls (trace (In46.test.Main sample_world)).
Proof.
  rewrite In48_trace, In46_trace.
  rewrite !seal_calls_shape by (by repeat constructor).
  intros H. apply (f_equal length) in H.
  rewrite !length_seal_shape in H. discriminate H.
Qed.

Example looped_call_counts :
  length (seal_calls (trace (In48.test.Main sample_world))) = 4025%nat
  ∧ length (seal_calls (trace (In46.test.Main sample_world))) = 29%nat.
Proof. split; vm_compute; reflexivity. Qed.

End CSharpFacts.

(** ** Truncation, and the last line a program writes *)

Module TimingFacts.
Import Py TFSeal.

Lemma int_truncation (x : Q) : truncation x (int x).
Proof.
  destruct x as [n d]. unfold truncation, int, Qle, Qlt. simpl.
  pose proof (Z.quot_rem' n (Z.pos d)) as Hqr.
  split; intros Hx.
  - assert (0 <= n)%Z as Hn by lia.
    pose proof (Z.rem_bound_pos n (Z.pos d) Hn ltac:(lia)) as Hr.
    split; nia.
  - assert (n <= 0)%Z as Hn by lia.
    pose proof (Z.rem_bound_pos_neg n (Z.pos d) ltac:(lia) Hn) as Hr.
    split; nia.
Qed.

Lemma truediv_zero (x y : Q) :
  (y == 0)%Q → truediv x y = Raise (ZeroDivisionError "float division by zero").
Proof.
  intros Hy. unfold truediv. apply Qeq_bool_iff in Hy. now rewrite Hy.
Qed.

Import CSharp Spec CSharpFacts.

Lemma console_lines_rounds (n : nat) :
  omap console_line (concat (replicate n round_calls)) = [].
Proof.
  induction n as [|n IH]; cbn [replicate concat]; [reflexivity|].
  rewrite omap_app, IH. reflexivity.
Qed.

Lemma last_line_shape (stopwatch : bool) (n : nat) (output : list Call) :
  last_line (shape stopwatch n output)
  = last ([] :: omap console_line output).
Proof.
  unfold last_line, shape, scope_calls.
  rewrite !omap_app, console_lines_rounds.
  destruct stopwatch; simpl; by rewrite app_nil_r.
Qed.

End TimingFacts.

(** ** The reported timings, in binary64 *)

Module ReportedTimings.
Import Py TFSeal CSharp Spec CSharpFacts TimingFacts Binary64 Cells.
Import Cells.LogisticRegression.

(** [int] of a float is the number it stands for, cut toward zero. *)
Lemma int_value (x : float) (k : Z) :
  Binary64.int x = Return k → ∃ q, value x = Some q ∧ truncation q k.
Proof.
  destruct x as [z | i | | s m e]; simpl; intros H; try discriminate H.
  - injection H as <-. exists 0%Q. split; [reflexivity|].
    exact (int_truncation 0).
  - injection H as <-. eexists. split; [reflexivity | apply int_truncation].
Qed.

(** The run of the timing cell: the five lines before the times, and then
    as many of the three last lines as can be computed. *)
Lemma cell_158_run (d tf_d : Val) (r : Readings) (s : nat) :
  ∃ lines,
    printed (events (cell_158 d tf_d r) s)
    = [ [Text (nl +:+ "TF SEAL Logistic Regression")];
        [Obj (S s)];
        [Text (nl +:+ "Approximately Equals" +:+ nl)];
        [Text "Tensorflow Logistic Regression"];
        [Obj (S (S s))] ]
      ++ lines
    ∧ match Binary64.shown_time (time_ini1 r) (time_fin1 r) with
      | Raise e => lines = [] ∧ outcome (cell_158 d tf_d r) s = Raise e
      | Return seal_time =>
          match Binary64.shown_time (time_ini2 r) (time_fin2 r) with
          | Raise e =>
              lines = [ [Text (nl +:+ "SEAL time:"); Float seal_time; Text "s"] ]
              ∧ outcome (cell_158 d tf_d r) s = Raise e
          | Return norm_time =>
              match Binary64.slowdown (time_ini1 r) (time_fin1 r)
                      (time_ini2 r) (time_fin2 r) with
              | Raise e =>
                  lines
                  = [ [Text (nl +:+ "SEAL time:"); Float seal_time; Text "s"];
                      [Text "Norm time:"; Float norm_time; Text "s"] ]
                  ∧ outcome (cell_158 d tf_d r) s = Raise e
              | Return ratio =>
                  lines
                  = [ [Text (nl +:+ "SEAL time:"); Float seal_time; Text "s"];
                      [Text "Norm time:"; Float norm_time; Text "s"];
                      [Text (nl +:+ "SEAL is about"); Integer ratio;
                       Text ("times slower than plaintext." +:+ nl)] ]
                  ∧ outcome (cell_158 d tf_d r) s = Return tt
              end
          end
      end.
Proof.
  unfold events, outcome, cell_158, with_Session.
  unfold mbind, P_bind, bind, call, call_, print_, event, process_time, lift,
    mret, P_ret, ret. simpl.
  destruct (Binary64.shown_time (time_ini1 r) (time_fin1 r)) as [t1 | e1];
    [|by exists []].
  destruct (Binary64.shown_time (time_ini2 r) (time_fin2 r)) as [t2 | e2];
    [|by eexists [_]].
  destruct (Binary64.slowdown _ _ _ _) as [n | e3];
    [by eexists [_; _; _] | by eexists [_; _]].
Qed.




Example shown_time_9_10 :
  Binary64.shown_time reading_9_267024629 reading_10_325781629
  = Return (int_truediv 1058757 1000000)
  ∧ reading_9_267024629 = int_truediv 9267024629 1000000000
  ∧ reading_10_325781629 = int_truediv 10325781629 1000000000.
Proof. repeat split; vm_compute; reflexivity. Qed.

End ReportedTimings.

(** ** What the repository's code does itself *)

Module RepositoryFacts.
Import Py HETransformer HETransformerFacts TFSeal CSharp Spec CSharpFacts.
Import Binary64 Activities.

Lemma activity_rounds (n : nat) :
  map Spec.activity (concat (replicate n round_calls))
  = replicate (4 * n) CallingLibrary.
Proof.
  induction n as [|n IH]; cbn [replicate concat]; [reflexivity|].
  rewrite map_app, IH.
  replace (4 * S n)%nat with (4 + 4 * n)%nat by lia. reflexivity.
Qed.

Lemma activity_output (output : list Call) :
  Forall (λ c, is_output c = true) output →
  map Spec.activity output = replicate (length output) Printing.
Proof.
  induction 1 as [|c l Hc Hl IH]; [reflexivity|].
  simpl. rewrite IH. by destruct c.
Qed.

Lemma activity_shape (stopwatch : bool) (n : nat) (output : list Call) :
  Forall (λ c, is_output c = true) output →
  map Spec.activity (shape stopwatch n output)
  = profile stopwatch n (length output).
Proof.
  intros Ho. unfold shape, scope_calls, profile.
  rewrite !map_app, activity_rounds, (activity_output output Ho).
  by destruct stopwatch.
Qed.

(** The activities of the timing cell: the last three lines are printed as
    far as the cell gets. *)
Lemma activity_cell_158 (d tf_d : Cells.Val) (r : Cells.LogisticRegression.Readings)
    (s : nat) :
  ∃ k, (k ≤ 3)%nat
    ∧ map Cells.activity (Cells.events (Cells.LogisticRegression.cell_158 d tf_d r) s)
      = Cells.runs [ (Some CallingLibrary, 2%nat); (Some Printing, 1%nat);
               (Some Timing, 1%nat); (Some CallingLibrary, 1%nat);
               (Some Timing, 1%nat); (Some Printing, 3%nat);
               (Some Timing, 1%nat); (Some CallingLibrary, 1%nat);
               (Some Timing, 1%nat); (Some Printing, S k);
               (Some CallingLibrary, 1%nat) ].
Proof.
  unfold Cells.events, Cells.LogisticRegression.cell_158, Cells.with_Session.
  unfold mbind, Cells.P_bind, Cells.bind, Cells.call, Cells.call_,
    Cells.print_, Cells.event,
    Cells.LogisticRegression.process_time, Cells.lift, mret, Cells.P_ret,
    Cells.ret. simpl.
  destruct (Binary64.shown_time _ _) as [t1 | e1];
    [|exists 0%nat; split; [lia | reflexivity]].
  destruct (Binary64.shown_time _ _) as [t2 | e2];
    [|exists 1%nat; split; [lia | reflexivity]].
  destruct (Binary64.slowdown _ _ _ _) as [n | e3];
    [exists 3%nat | exists 2%nat]; (split; [lia | reflexivity]).
Qed.



End RepositoryFacts.

(** ** More on the command-line helpers *)

Module HETransformerMoreFacts.
Import Py HETransformer HETransformerFacts HETransformerMain.

(** *** [str2bool] *)

Lemma length_lower (s : string) : String.length (lower s) = String.length s.
Proof. induction s as [|c s IH]; simpl; congruence. Qed.

Lemma str2bool_returns (s : string) (r : value) :
  str2bool (PyStr s) = Return r →
  (r = PyBool true ∧ In (lower s) truthy)
  ∨ (r = PyBool false ∧ In (lower s) falsy).
Proof.
  rewrite str2bool_lower.
  destruct (in_tuple (lower s) truthy) eqn:Ht.
  - intros [= <-]. left. split; [reflexivity | by apply in_tuple_In].
  - destruct (in_tuple (lower s) falsy) eqn:Hf; [|discriminate].
    intros [= <-]. right. split; [reflexivity | by apply in_tuple_In].
Qed.

(** X1: whatever [str2bool] returns is a bool, and [str2bool] returns it
    unchanged when applied again. *)
Theorem str2bool_returns_bool (v r : value) :
  str2bool v = Return r →
  (∃ b, r = PyBool b) ∧ str2bool r = Return r.
Proof.
  destruct v as [b|s].
  - intros [= <-]. split; [by exists b | reflexivity].
  - intros H. apply str2bool_returns in H as [[-> _] | [-> _]];
      (split; [by eexists | reflexivity]).
Qed.

Lemma str2bool_returns_bool_witness :
  str2bool (PyStr "TRUE") = Return (PyBool true)
  ∧ (∃ b, PyBool true = PyBool b)
  ∧ str2bool (PyBool true) = Return (PyBool true).
Proof.
  split; [reflexivity|].
  exact (str2bool_returns_bool (PyStr "TRUE") (PyBool true) eq_refl).
Defined.

(** X2: a string [str2bool] accepts has one to five characters, none of them a
    blank: the empty string, a longer string and a string with a space or a
    tab around the word are rejected. *)
Theorem str2bool_accepted_strings (s : string) (r : value) :
  str2bool (PyStr s) = Return r →
  (1 ≤ String.length s ≤ 5)%nat
  ∧ ¬ In " "%char (String.list_ascii_of_string s)
  ∧ ¬ In (ascii_of_nat 9) (String.list_ascii_of_string s).
Proof.
  intros H.
  assert (In (lower s) (truthy ++ falsy)) as Hin.
  { apply in_or_app. apply str2bool_returns in H. tauto. }
  assert (∀ (x : ascii), lower_ascii x = x →
            In x (String.list_ascii_of_string s) →
            In x (String.list_ascii_of_string (lower s))) as Hkeep.
  { intros x Hx. clear -Hx. induction s as [|c s IH]; simpl; [tauto|].
    intros [-> | Hc]; [by left | right; by apply IH]. }
  rewrite <- (length_lower s).
  split; [|split].
  - unfold truthy, falsy in Hin. simpl in Hin.
    repeat (destruct Hin as [<- | Hin]; [simpl; lia|]). destruct Hin.
  - intros Hs. apply (Hkeep _ eq_refl) in Hs.
    unfold truthy, falsy in Hin. simpl in Hin.
    repeat (destruct Hin as [Hw | Hin];
            [rewrite <- Hw in Hs; simpl in Hs;
             repeat (destruct Hs as [Hs | Hs]; [discriminate Hs|]); exact Hs|]).
    destruct Hin.
  - intros Hs. apply (Hkeep _ eq_refl) in Hs.
    unfold truthy, falsy in Hin. simpl in Hin.
    repeat (destruct Hin as [Hw | Hin];
            [rewrite <- Hw in Hs; simpl in Hs;
             repeat (destruct Hs as [Hs | Hs]; [discriminate Hs|]); exact Hs|]).
    destruct Hin.
Qed.

Lemma str2bool_accepted_strings_witness :
  str2bool (PyStr "False") = Return (PyBool false)
  ∧ (1 ≤ String.length "False" ≤ 5)%nat
  ∧ ¬ In " "%char (String.list_ascii_of_string "False")
  ∧ ¬ In (ascii_of_nat 9) (String.list_ascii_of_string "False").
Proof.
  split; [reflexivity|].
  exact (str2bool_accepted_strings "False" (PyBool false) eq_refl).
Defined.

Example str2bool_blank : 
  str2bool (PyStr EmptyString) = Raise (ArgumentTypeError "Boolean value expected.")
  ∧ str2bool (PyStr " yes") = Raise (ArgumentTypeError "Boolean value expected.").
Proof. split; reflexivity. Qed.

(** *** [server_config_from_flags] *)

Lemma base_parameters_keys (FLAGS : Flags) (k : string) :
  is_Some (base_parameters FLAGS !! k) ↔ In k fixed_keys.
Proof.
  destruct (in_dec String.string_dec k fixed_keys) as [Hin | Hout].
  - split; [by intros _|]. intros _.
    pose proof (base_parameters_fixed FLAGS) as (Hb & Hd & He & Hc).
    unfold binds in *. unfold fixed_keys in Hin. simpl in Hin.
    destruct Hin as [<-|[<-|[<-|[<-|[]]]]]; by eexists.
  - rewrite (base_parameters_other FLAGS k Hout).
    split; [by intros [? ?] | by intros ?].
Qed.

(** X3: the parameter map has the four fixed keys, the tensor name as well when
    the client is enabled, and no other key. *)
Theorem parameter_keys (FLAGS : Flags) (tensor_param_name : string) :
  ∃ pm,
    optimizer_parameters "ngraph-optimizer"
      (server_config_from_flags FLAGS tensor_param_name) = Some pm
    ∧ ∀ k, is_Some (pm !! k)
           ↔ In k ["ngraph_backend"; "device_id"; "encryption_parameters";
                   "enable_client"]
             ∨ (enable_client FLAGS = true ∧ k = tensor_param_name).
Proof.
  eexists. split; [apply server_config_parameters|].
  intros k. fold fixed_keys. rewrite <- (base_parameters_keys FLAGS k).
  destruct (enable_client FLAGS).
  - destruct (decide (tensor_param_name = k)) as [-> | Hne].
    + rewrite lookup_insert_eq. split; [intros _; by right | by eexists].
    + rewrite lookup_insert_ne by exact Hne.
      split; [by left | intros [H | [_ ->]]; [exact H | contradiction]].
  - split; [by left | intros [H | [H _]]; [exact H | discriminate H]].
Qed.

(** X4: with the client enabled, the tensor name is bound to b"client_input"
    whatever it is, also when it is one of the fixed keys, and every fixed
    key other than the tensor name keeps the value written for it. *)
Theorem client_input_is_written_last (FLAGS : Flags) (tensor_param_name : string) :
  enable_client FLAGS = true →
  ∃ pm,
    optimizer_parameters "ngraph-optimizer"
      (server_config_from_flags FLAGS tensor_param_name) = Some pm
    ∧ binds pm tensor_param_name (encode "client_input")
    ∧ (tensor_param_name ≠ "ngraph_backend" →
       binds pm "ngraph_backend" (encode (backend FLAGS)))
    ∧ (tensor_param_name ≠ "device_id" → binds pm "device_id" [])
    ∧ (tensor_param_name ≠ "encryption_parameters" →
       binds pm "encryption_parameters" (encode (encryption_parameters FLAGS)))
    ∧ (tensor_param_name ≠ "enable_client" →
       binds pm "enable_client" (encode "True")).
Proof.
  intros Hen.
  pose proof (base_parameters_fixed FLAGS) as (Hb & Hd & He & Hc).
  eexists. split; [apply server_config_parameters|].
  rewrite Hen in *. unfold binds in *.
  split; [apply lookup_insert_eq|].
  repeat split; intros Hne; by rewrite lookup_insert_ne.
Qed.

Lemma client_input_is_written_last_witness :
  ∃ pm,
    optimizer_parameters "ngraph-optimizer"
      (server_config_from_flags
         {| batch_size := 1; enable_client := true;
            backend := "HE_SEAL"; encryption_parameters := "params.json" |}
         "enable_client") = Some pm
    ∧ binds pm "enable_client" (encode "client_input")
    ∧ binds pm "ngraph_backend" (encode "HE_SEAL").
Proof.
  destruct (client_input_is_written_last
              {| batch_size := 1; enable_client := true;
                 backend := "HE_SEAL"; encryption_parameters := "params.json" |}
              "enable_client" eq_refl)
    as (pm & Hpm & Hname & Hbackend & _).
  exists pm. split; [exact Hpm|]. split; [exact Hname|].
  apply Hbackend. discriminate.
Defined.

(** **** Tensor names *)

Lemma list_ascii_of_append (a b : string) :
  String.list_ascii_of_string (a +:+ b)
  = String.list_ascii_of_string a ++ String.list_ascii_of_string b.
Proof. induction a as [|c a IH]; simpl; [reflexivity | by rewrite IH]. Qed.

Lemma tensor_name_has_colon (n : string) :
  is_tensor_name n → In ":"%char (String.list_ascii_of_string n).
Proof.
  intros (op & index & ->). rewrite !list_ascii_of_append.
  apply in_or_app. right. simpl. by left.
Qed.

Lemma tensor_name_not_fixed (n : string) :
  is_tensor_name n → ¬ In n fixed_keys.
Proof.
  intros Hn Hin. apply tensor_name_has_colon in Hn.
  unfold fixed_keys in Hin. simpl in Hin.
  destruct Hin as [<-|[<-|[<-|[<-|[]]]]]; simpl in Hn;
    repeat (destruct Hn as [Hn | Hn]; [discriminate Hn|]); exact Hn.
Qed.

Lemma expected_when_not_fixed (FLAGS : Flags) (n : string) :
  ¬ In n fixed_keys →
  server_config_expected FLAGS n (server_config_from_flags FLAGS n).
Proof.
  intros Hfresh.
  pose proof (base_parameters_fixed FLAGS) as (Hb & Hd & He & Hc).
  pose proof (base_parameters_other FLAGS _ Hfresh) as Hnone.
  eexists. split; [apply server_config_parameters|].
  unfold binds in *.
  destruct (enable_client FLAGS) eqn:Hen.
  - assert (n ≠ "ngraph_backend" ∧ n ≠ "device_id"
            ∧ n ≠ "encryption_parameters" ∧ n ≠ "enable_client")
      as (H1 & H2 & H3 & H4)
      by (unfold fixed_keys in Hfresh; simpl in Hfresh;
          repeat split; intros ->; tauto).
    rewrite !lookup_insert_ne by assumption.
    rewrite lookup_insert_eq. tauto.
  - rewrite Hnone. repeat split; try assumption; discriminate.
Qed.

(** X5: for a TensorFlow tensor name ([op:index], as [a.name] in [main]) the
    parameter map holds the four fixed bindings for every [FLAGS], and binds
    the name to b"client_input" exactly when the client is enabled: a tensor
    name is never one of the fixed keys. *)
Theorem tensor_names_are_safe (FLAGS : Flags) (n : string) :
  is_tensor_name n →
  ¬ In n ["ngraph_backend"; "device_id"; "encryption_parameters"; "enable_client"]
  ∧ server_config_expected FLAGS n (server_config_from_flags FLAGS n).
Proof.
  intros Hn. pose proof (tensor_name_not_fixed n Hn) as Hfresh.
  split; [exact Hfresh | by apply expected_when_not_fixed].
Qed.

(** The configuration of [main], for the default flags. *)
Lemma tensor_names_are_safe_witness :
  is_tensor_name a_name
  ∧ server_config_expected default_flags a_name (main_config default_flags).
Proof.
  assert (is_tensor_name a_name) as H
    by (exists "client_parameter_name", "0"; reflexivity).
  split; [exact H | exact (proj2 (tensor_names_are_safe default_flags a_name H))].
Defined.

(** **** What the configuration depends on *)

Lemma encode_injective (s1 s2 : string) : encode s1 = encode s2 → s1 = s2.
Proof.
  unfold encode. intros H.
  rewrite <- (String.string_of_list_byte_of_string s1),
          <- (String.string_of_list_byte_of_string s2).
  by rewrite H.
Qed.

Lemma str_of_bool_injective (b1 b2 : bool) :
  str_of_bool b1 = str_of_bool b2 → b1 = b2.
Proof. destruct b1, b2; simpl; congruence. Qed.

(** X6: for tensor names that are none of the fixed keys, two calls return the
    same configuration exactly when the flags agree on the backend, on the
    encryption parameters and on the client, and, with the client enabled,
    the tensor names agree: the configuration can be read back, and it
    depends neither on [batch_size] nor, with the client disabled, on the
    tensor name. *)
Theorem config_determines_flags (FLAGS1 FLAGS2 : Flags) (n1 n2 : string) :
  ¬ In n1 fixed_keys → ¬ In n2 fixed_keys →
  server_config_from_flags FLAGS1 n1 = server_config_from_flags FLAGS2 n2
  ↔ backend FLAGS1 = backend FLAGS2
    ∧ encryption_parameters FLAGS1 = encryption_parameters FLAGS2
    ∧ enable_client FLAGS1 = enable_client FLAGS2
    ∧ (enable_client FLAGS1 = true → n1 = n2).
Proof.
  intros Hn1 Hn2. split.
  - intros Heq.
    destruct (expected_when_not_fixed FLAGS1 n1 Hn1)
      as (pm1 & Hpm1 & Hb1 & _ & He1 & Hc1 & Ht1).
    destruct (expected_when_not_fixed FLAGS2 n2 Hn2)
      as (pm2 & Hpm2 & Hb2 & _ & He2 & Hc2 & Ht2).
    rewrite Heq, Hpm2 in Hpm1. injection Hpm1 as <-.
    unfold binds in *.
    assert (backend FLAGS1 = backend FLAGS2) as Hb
      by (apply encode_injective; congruence).
    assert (encryption_parameters FLAGS1 = encryption_parameters FLAGS2) as He
      by (apply encode_injective; congruence).
    assert (enable_client FLAGS1 = enable_client FLAGS2) as Hc
      by (apply str_of_bool_injective, encode_injective; congruence).
    repeat split; try assumption.
    intros Hen. apply Ht1 in Hen.
    destruct (decide (n1 = n2)) as [Hsame | Hne]; [exact Hsame | exfalso].
    rewrite server_config_parameters in Hpm2. injection Hpm2 as Hpm2.
    rewrite <- Hpm2 in Hen.
    destruct (enable_client FLAGS2).
    + rewrite lookup_insert_ne in Hen by congruence.
      by rewrite (base_parameters_other FLAGS2 n1 Hn1) in Hen.
    + by rewrite (base_parameters_other FLAGS2 n1 Hn1) in Hen.
  - destruct FLAGS1 as [bs1 en1 b1 ep1], FLAGS2 as [bs2 en2 b2 ep2]. simpl.
    intros (-> & -> & -> & Hn).
    destruct en2; [by rewrite (Hn eq_refl) | reflexivity].
Qed.

Lemma config_determines_flags_witness :
  ¬ In a_name fixed_keys ∧ ¬ In "b:0" fixed_keys
  ∧ server_config_from_flags default_flags a_name
    = server_config_from_flags
        {| batch_size := 4096; enable_client := false;
           backend := "HE_SEAL"; encryption_parameters := EmptyString |} "b:0".
Proof.
  assert (¬ In a_name fixed_keys) as H1
    by (apply tensor_name_not_fixed; exists "client_parameter_name", "0";
        reflexivity).
  assert (¬ In "b:0" fixed_keys) as H2
    by (apply tensor_name_not_fixed; exists "b", "0"; reflexivity).
  split; [exact H1|]. split; [exact H2|].
  apply (proj2 (config_determines_flags default_flags
                  {| batch_size := 4096; enable_client := false;
                     backend := "HE_SEAL"; encryption_parameters := EmptyString |}
                  a_name "b:0" H1 H2)).
  repeat split. discriminate.
Defined.

End HETransformerMoreFacts.

(** ** More on the timing session *)

Module TimingMoreFacts.
Import Py TFSeal TimingFacts.

Lemma inject_Z_lt_succ (a b : Z) : (inject_Z a < inject_Z b + 1)%Q → (a <= b)%Z.
Proof.
  intros H.
  assert (inject_Z a < inject_Z (b + 1))%Q as H'
    by (rewrite inject_Z_plus; exact H).
  rewrite <- Zlt_Qlt in H'. lia.
Qed.

(** [int] keeps the order. *)
Lemma int_monotone (x y : Q) : (x <= y)%Q → (int x <= int y)%Z.
Proof.
  intros Hxy.
  destruct (int_truncation x) as [Hxp Hxn], (int_truncation y) as [Hyp Hyn].
  destruct (Qlt_le_dec x 0) as [Hx | Hx], (Qlt_le_dec y 0) as [Hy | Hy].
  - destruct (Hxn ltac:(lra)) as [_ Hx2]. destruct (Hyn ltac:(lra)) as [Hy1 _].
    apply inject_Z_lt_succ. lra.
  - destruct (Hxn ltac:(lra)) as [_ Hx2]. destruct (Hyp Hy) as [_ Hy2].
    assert (int x <= 0)%Z
      by (apply inject_Z_lt_succ; change (inject_Z 0) with 0%Q; lra).
    assert (-1 <= int y)%Z
      by (apply inject_Z_lt_succ; change (inject_Z (-1)) with (-1)%Q; lra).
    enough (int y <> -1)%Z by lia.
    intros Hm. rewrite Hm in Hy2. change (inject_Z (-1)) with (-1)%Q in Hy2. lra.
  - lra.
  - destruct (Hxp Hx) as [Hx1 _]. destruct (Hyp Hy) as [_ Hy2].
    apply inject_Z_lt_succ. lra.
Qed.

Lemma int_zero (x : Q) : (x == 0)%Q → int x = 0%Z.
Proof.
  unfold Qeq, int. simpl. intros H.
  replace (Qnum x) with 0%Z by lia. reflexivity.
Qed.





End TimingMoreFacts.

(** ** The polynomial of [sigmoid] *)

Module SigmoidFacts.
Import TFSeal SigmoidApproximation.

Lemma cube (x : Q) : (x ^ 3 == x * x * x)%Q.
Proof. unfold Qpower, Qpower_positive. simpl. ring. Qed.

Lemma polynomial_coeffs (x : Q) :
  (polynomial coeffs x == commented_polynomial x)%Q.
Proof.
  unfold polynomial, coeffs, commented_polynomial. simpl fold_right.
  rewrite cube. ring.
Qed.

(** X10: the coefficients [sigmoid] passes, read in ascending order of the
    power as a library that evaluates them entry by entry does, are the
    polynomial its comment names, [0.5 + 0.197x - 0.004x^3], with no term
    in [x^2]; like the sigmoid, it takes the value a half at zero and its
    values at [x] and [-x] add up to one. *)
Theorem sigmoid_is_the_commented_polynomial (t : Qmatrix) :
  Forall2 (Forall2 Qeq)
    (@sigmoid plaintext_library t) (map (map commented_polynomial) t)
  ∧ (polynomial coeffs 0 == 1 # 2)%Q
  ∧ ∀ x, (polynomial coeffs x + polynomial coeffs (- x) == 1)%Q.
Proof.
  split; [|split].
  - unfold sigmoid. simpl.
    induction t as [|row t IH]; simpl; constructor; [|exact IH].
    induction row as [|x row IHrow]; simpl; constructor; [|exact IHrow].
    apply polynomial_coeffs.
  - reflexivity.
  - intros x. rewrite !polynomial_coeffs. unfold commented_polynomial.
    rewrite !cube. ring.
Qed.

End SigmoidFacts.

(** ** More on the traces of the C# programs *)

Module LifetimeFacts.
Import CSharp Spec CSharpFacts Lifetime.

Lemma omap_round_calls {A} (f : Call → option A) (n : nat) :
  omap f round_calls = [] → omap f (concat (replicate n round_calls)) = [].
Proof.
  intros H. induction n as [|n IH]; cbn [replicate concat]; [reflexivity|].
  by rewrite omap_app, H, IH.
Qed.

(** The objects the body of a trace constructs. *)
Lemma constructs_body (f : Call → option Ref) (stopwatch : bool) (n : nat)
    (output : list Call) :
  omap f round_calls = [] →
  (∀ c, is_output c = true → f c = None) →
  Forall (λ c, is_output c = true) output →
  omap f (setup_calls
          ++ (if stopwatch then [New_Stopwatch 12; Stopwatch_Start 12] else [])
          ++ concat (replicate n round_calls)
          ++ (if stopwatch then [Stopwatch_Stop 12] else [])
          ++ output)
  = omap f setup_calls
    ++ omap f (if stopwatch then [New_Stopwatch 12; Stopwatch_Start 12] else [])
    ++ omap f (if stopwatch then [Stopwatch_Stop 12] else []).
Proof.
  intros Hr Hf Ho.
  rewrite !omap_app, (omap_round_calls f n Hr), (omap_output f output Hf Ho).
  by rewrite app_nil_r.
Qed.

Lemma shape_body (stopwatch : bool) (n : nat) (output : list Call) :
  shape stopwatch n output
  = (setup_calls
     ++ (if stopwatch then [New_Stopwatch 12; Stopwatch_Start 12] else [])
     ++ concat (replicate n round_calls)
     ++ (if stopwatch then [Stopwatch_Stop 12] else [])
     ++ output) ++ disposals.
Proof. unfold shape, scope_calls. by rewrite <- !app_assoc. Qed.

Lemma body_objects (stopwatch : bool) (n : nat) (output : list Call) :
  Forall (λ c, is_output c = true) output →
  omap constructs_seal
    (setup_calls
     ++ (if stopwatch then [New_Stopwatch 12; Stopwatch_Start 12] else [])
     ++ concat (replicate n round_calls)
     ++ (if stopwatch then [Stopwatch_Stop 12] else [])
     ++ output)
  = [0; 1; 2; 3; 4; 5; 6; 7; 8; 9; 10]%nat.
Proof.
  intros Ho.
  rewrite (constructs_body constructs_seal) by
    (reflexivity || by_cases_on_call || exact Ho).
  by destruct stopwatch.
Qed.

Lemma body_disposes_nothing (stopwatch : bool) (n : nat) (output : list Call) :
  Forall (λ c, is_output c = true) output →
  Forall (λ c, disposes c = None)
    (setup_calls
     ++ (if stopwatch then [New_Stopwatch 12; Stopwatch_Start 12] else [])
     ++ concat (replicate n round_calls)
     ++ (if stopwatch then [Stopwatch_Stop 12] else [])
     ++ output).
Proof.
  intros Ho. repeat (apply Forall_app; split).
  - repeat constructor.
  - destruct stopwatch; repeat constructor.
  - apply Forall_rounds. repeat constructor.
  - destruct stopwatch; repeat constructor.
  - apply output_only; [by_cases_on_call | exact Ho].
Qed.

Lemma shape_disposed_at_end (stopwatch : bool) (n : nat) (output : list Call) :
  Forall (λ c, is_output c = true) output →
  disposed_at_end (shape stopwatch n output).
Proof.
  intros Ho. unfold disposed_at_end.
  eexists. split; [|split].
  - rewrite shape_body. f_equal. by rewrite body_objects.
  - by apply body_disposes_nothing.
  - rewrite shape_body, omap_app.
    rewrite (constructs_body constructs) by
      (reflexivity || by_cases_on_call || exact Ho).
    destruct stopwatch; compute_done.
Qed.

(** X11: every SEAL object a program constructs is disposed once, at the end
    of the run and after every other call, the last constructed first; the
    list and the stopwatch are not disposed; and no object is constructed
    twice. *)
Theorem objects_disposed_in_reverse (p : World → M unit) (w : World) :
  In p programs → disposed_at_end (trace (p w)).
Proof.
  intros Hp.
  destruct (programs_shape p Hp) as (sw & n & _ & Hshape).
  destruct (Hshape w) as (out & -> & Ho).
  by apply shape_disposed_at_end.
Qed.

Lemma objects_disposed_in_reverse_witness :
  In In47.test.Main programs
  ∧ disposed_at_end (trace (In47.test.Main sample_world)).
Proof.
  assert (In In47.test.Main programs) as H by (simpl; tauto).
  split; [exact H | exact (objects_disposed_in_reverse _ sample_world H)].
Defined.

(** *** Lifetimes *)

Lemma used_from_cons (before : list Ref) (c : Call) (t : list Call) :
  Forall (λ r, r ∈ before) (uses c) →
  used_after_construction_from
    (before ++ match constructs c with Some r => [r] | None => [] end) t →
  used_after_construction_from before (c :: t).
Proof.
  intros Hc Ht t1 c' t2 r Heq Hr.
  destruct t1 as [|c0 t1]; simpl in Heq.
  - injection Heq as <- _. rewrite Forall_forall in Hc.
    rewrite elem_of_app. left. by apply Hc.
  - injection Heq as <- Heq.
    specialize (Ht t1 c' t2 r Heq Hr).
    rewrite <- app_assoc in Ht.
    simpl. by destruct (constructs c).
Qed.

Lemma used_from_Forall (before : list Ref) (t : list Call) :
  Forall (λ c, Forall (λ r, r ∈ before) (uses c)) t →
  used_after_construction_from before t.
Proof.
  intros Hall t1 c t2 r -> Hr.
  apply Forall_app in Hall as [_ Hall].
  inversion Hall as [|? ? Hc _]; subst.
  rewrite Forall_forall in Hc. rewrite elem_of_app. left. by apply Hc.
Qed.

Lemma output_uses_nothing (before : list Ref) (output : list Call) :
  Forall (λ c, is_output c = true) output →
  Forall (λ c, Forall (λ r, r ∈ before) (uses c)) output.
Proof.
  apply output_only. intros c. destruct c; simpl; intros; try discriminate;
    constructor.
Qed.

Lemma shape_used_after_construction (stopwatch : bool) (n : nat)
    (output : list Call) :
  Forall (λ c, is_output c = true) output →
  used_after_construction (shape stopwatch n output).
Proof.
  intros Ho. unfold used_after_construction, shape, setup_calls. cbn [app].
  do 17 (apply used_from_cons; [compute_done | cbn [constructs app]]).
  unfold scope_calls. destruct stopwatch; cbn [app].
  - do 2 (apply used_from_cons; [compute_done | cbn [constructs app]]).
    apply used_from_Forall. repeat (apply Forall_app; split).
    + apply Forall_rounds. compute_done.
    + constructor; [compute_done|]. apply Forall_app. split.
      * by apply output_uses_nothing.
      * compute_done.
  - apply used_from_Forall. repeat (apply Forall_app; split).
    + apply Forall_rounds. compute_done.
    + by apply output_uses_nothing.
    + compute_done.
Qed.

Lemma disposals_unused (l : list Ref) :
  NoDup l →
  ∀ t1 r t2, map Dispose l = t1 ++ Dispose r :: t2 →
    Forall (λ c, r ∉ uses c) t2.
Proof.
  induction 1 as [|x l Hx Hl IH]; intros t1 r t2 Heq.
  - by destruct t1.
  - destruct t1 as [|c t1]; simpl in Heq.
    + injection Heq as -> <-.
      apply Forall_forall. intros c Hc.
      apply list_elem_of_fmap in Hc as (y & -> & Hy). simpl.
      rewrite list_elem_of_singleton. by intros ->.
    + injection Heq as _ Heq. by eapply IH.
Qed.

Lemma shape_unused_after_disposal (stopwatch : bool) (n : nat)
    (output : list Call) :
  Forall (λ c, is_output c = true) output →
  unused_after_disposal (shape stopwatch n output).
Proof.
  intros Ho t1 r t2 Heq.
  rewrite shape_body in Heq.
  apply (split_after (λ c, disposes c ≠ None)) in Heq as (t1' & _ & Heq).
  - eapply (disposals_unused [10; 9; 8; 7; 6; 5; 4; 3; 2; 1; 0]%nat);
      [compute_done | exact Heq].
  - eapply Forall_impl; [by apply body_disposes_nothing|].
    intros c Hc Hne. by apply Hne.
  - discriminate.
Qed.

(** X12: in every program a call uses only objects constructed by an earlier
    call, and no call uses an object after its disposal (so nothing is
    disposed twice). *)
Theorem objects_used_while_alive (p : World → M unit) (w : World) :
  In p programs →
  used_after_construction (trace (p w)) ∧ unused_after_disposal (trace (p w)).
Proof.
  intros Hp.
  destruct (programs_shape p Hp) as (sw & n & _ & Hshape).
  destruct (Hshape w) as (out & -> & Ho).
  split; [by apply shape_used_after_construction
         | by apply shape_unused_after_disposal].
Qed.

Lemma objects_used_while_alive_witness :
  In In23.test.Main programs
  ∧ used_after_construction (trace (In23.test.Main sample_world))
  ∧ unused_after_disposal (trace (In23.test.Main sample_world)).
Proof.
  assert (In In23.test.Main programs) as H by (simpl; tauto).
  split; [exact H | exact (objects_used_while_alive _ sample_world H)].
Defined.

(** *** Keys and data of the rounds *)

Lemma shape_keys_match (stopwatch : bool) (n : nat) (output : list Call) :
  Forall (λ c, is_output c = true) output →
  keys_match (shape stopwatch n output).
Proof.
  intros Ho.
  exists 1%nat, 2%nat, 3%nat, 4%nat, 5%nat, 6%nat, 7%nat.
  repeat (split; [unfold shape; apply elem_of_app; left;
                  apply list_elem_of_In; simpl; tauto|]).
  apply Forall_shape; try (repeat constructor).
  apply output_only; [by_cases_on_call | exact Ho].
Qed.

(** X13: in every program the encryptor is built on the public key and the
    decryptor on the secret key of the same key generator, all in the one
    context the encoder is built in, and every [Encrypt], [Decrypt],
    [Encode] and [Decode] is called on these objects: what is encrypted is
    decrypted with the matching key. *)
Theorem encryptor_and_decryptor_share_keys (p : World → M unit) (w : World) :
  In p programs → keys_match (trace (p w)).
Proof.
  intros Hp.
  destruct (programs_shape p Hp) as (sw & n & _ & Hshape).
  destruct (Hshape w) as (out & -> & Ho).
  by apply shape_keys_match.
Qed.

Lemma encryptor_and_decryptor_share_keys_witness :
  In In16.test.Main programs
  ∧ keys_match (trace (In16.test.Main sample_world)).
Proof.
  assert (In In16.test.Main programs) as H by (simpl; tauto).
  split; [exact H | exact (encryptor_and_decryptor_share_keys _ sample_world H)].
Defined.

Lemma filter_rounds (f : Call → bool) (n : nat) :
  List.filter f round_calls = round_calls →
  List.filter f (concat (replicate n round_calls))
  = concat (replicate n round_calls).
Proof.
  intros H. induction n as [|n IH]; cbn [replicate concat]; [reflexivity|].
  by rewrite List.filter_app, H, IH.
Qed.

Lemma filter_output (f : Call → bool) (output : list Call) :
  (∀ c, is_output c = true → f c = false) →
  Forall (λ c, is_output c = true) output → List.filter f output = [].
Proof.
  intros Hf Ho. induction Ho as [|c l Hc Hl IH]; [reflexivity|].
  simpl. by rewrite (Hf c Hc).
Qed.

Lemma shape_round_dataflow (stopwatch : bool) (n : nat) (output : list Call) :
  Forall (λ c, is_output c = true) output →
  round_dataflow n (shape stopwatch n output).
Proof.
  intros Ho.
  exists 7%nat, 5%nat, 6%nat, e_12, two_pow_40, 8%nat, 10%nat, 9%nat, 11%nat.
  split.
  - unfold shape, scope_calls. rewrite !List.filter_app.
    rewrite (filter_rounds is_round n eq_refl).
    rewrite (filter_output is_round output) by (by_cases_on_call || exact Ho).
    destruct stopwatch; simpl; by rewrite app_nil_r.
  - split; [discriminate|].
    repeat split; unfold shape; apply elem_of_app; left;
      apply list_elem_of_In; simpl; tauto.
Qed.

(** X14: in every program the rounds pass their data on: [Encrypt] reads the
    plaintext [Encode] has written, [Decrypt] reads the ciphertext [Encrypt]
    has written, [Decode] reads the plaintext [Decrypt] has written, which is
    another object than the encoded plaintext, into the list; so the value a
    program prints as decoded has gone through the ciphertext. *)
Theorem decoded_value_went_through_ciphertext (p : World → M unit) (w : World) :
  In p programs →
  ∃ n, (n = 1%nat ∨ n = 1000%nat) ∧ round_dataflow n (trace (p w)).
Proof.
  intros Hp.
  destruct (programs_shape p Hp) as (sw & n & Hn & Hshape).
  destruct (Hshape w) as (out & -> & Ho).
  exists n. split; [exact Hn | by apply shape_round_dataflow].
Qed.

Lemma decoded_value_went_through_ciphertext_witness :
  In In46.test.Main programs
  ∧ ∃ n, (n = 1%nat ∨ n = 1000%nat)
         ∧ round_dataflow n (trace (In46.test.Main sample_world)).
Proof.
  assert (In In46.test.Main programs) as H by (simpl; tauto).
  split; [exact H | exact (decoded_value_went_through_ciphertext _ sample_world H)].
Defined.

(** *** What the stopwatch measures *)

Lemma length_rounds (n : nat) :
  length (concat (replicate n round_calls)) = (4 * n)%nat.
Proof.
  induction n as [|n IH]; cbn [replicate concat]; [reflexivity|].
  rewrite length_app, IH. simpl. lia.
Qed.

Lemma shape_rounds_timed (n : nat) (output : list Call) :
  Forall (λ c, is_output c = true) output →
  rounds_timed n (shape true n output).
Proof.
  intros Ho.
  exists setup_calls, 12%nat, (concat (replicate n round_calls)),
    (output ++ disposals).
  split; [|split; [|split]].
  - reflexivity.
  - apply Forall_rounds. by repeat constructor.
  - apply length_rounds.
  - repeat (apply Forall_app; split).
    + by repeat constructor.
    + apply output_only; [|exact Ho].
      intros c. destruct c; simpl; intros; (discriminate || by split).
    + by repeat constructor.
Qed.

Lemma shape_untimed (n : nat) (output : list Call) :
  Forall (λ c, is_output c = true) output →
  Forall (λ c, is_stopwatch c = false) (shape false n output).
Proof.
  intros Ho. unfold shape, scope_calls.
  repeat (apply Forall_app; split); try (by repeat constructor).
  - apply Forall_rounds. by repeat constructor.
  - apply output_only; [by_cases_on_call | exact Ho].
Qed.

(** X15: in each program with a stopwatch, the stopwatch is constructed and
    started right before the rounds and stopped right after them: the calls
    between [Start] and [Stop] are the [Encode], [Encrypt], [Decrypt] and
    [Decode] calls of the [n] rounds and nothing else, so the parameters, the
    context, the keys, the output and the disposals are not in the measured
    time; the two programs without a stopwatch make no stopwatch call. *)
Theorem stopwatch_measures_the_rounds (p : World → M unit) (n : nat) (w : World) :
  In (p, n) timed_programs →
  rounds_timed n (trace (p w))
  ∧ Forall (λ q, Forall (λ c, is_stopwatch c = false) (trace (q w)))
      untimed_programs.
Proof.
  intros Hp. split.
  - unfold timed_programs in Hp. simpl in Hp.
    destruct Hp as [[= <- <-]|[[= <- <-]|[[= <- <-]|[[= <- <-]|[[= <- <-]|[]]]]]].
    + rewrite In47_trace. apply shape_rounds_timed. by repeat constructor.
    + rewrite In48_trace. apply shape_rounds_timed. by repeat constructor.
    + rewrite In23_trace. apply shape_rounds_timed. by repeat constructor.
    + rewrite In25_trace. apply shape_rounds_timed. by repeat constructor.
    + rewrite Handle_Clicked_trace. apply shape_rounds_timed.
      by repeat constructor.
  - unfold untimed_programs. constructor; [|constructor; [|constructor]].
    + rewrite In46_trace. apply shape_untimed. by repeat constructor.
    + rewrite In16_trace. apply shape_untimed. by repeat constructor.
Qed.

Lemma stopwatch_measures_the_rounds_witness :
  In (In25.test.Main, 1000%nat) timed_programs
  ∧ rounds_timed 1000 (trace (In25.test.Main sample_world)).
Proof.
  assert (In (In25.test.Main, 1000%nat) timed_programs) as H
    by (simpl; tauto).
  split; [exact H|].
  exact (proj1 (stopwatch_measures_the_rounds _ _ sample_world H)).
Defined.

(** *** The button handler and cell [25] *)

(** X16: [Handle_Clicked] makes the calls of [test.Main] of cell [25], the
    blank console line of the setup included, except that where [test.Main]
    writes its three lines to the console, [Handle_Clicked] assigns one text
    to [LabelText], with the same three numbers in the same formats, and
    notifies the page of the change. *)
Theorem Handle_Clicked_is_cell_25 (w : World) :
  ∃ calls line1 line2 line3 label rest,
    trace (In25.test.Main w)
    = calls ++ [ Console_WriteLine line1; Console_WriteLine line2;
                 Console_WriteLine line3 ] ++ rest
    ∧ trace (MainPage.Handle_Clicked w)
      = calls ++ [Set_labelText label; OnPropertyChanged "LabelText"] ++ rest
    ∧ numbers label = numbers (line1 ++ line2 ++ line3)
    ∧ Console_WriteLine [] ∈ calls
    ∧ Forall (λ c, is_output c = false) rest.
Proof.
  rewrite In25_trace, Handle_Clicked_trace.
  exists (setup_calls ++ [New_Stopwatch 12; Stopwatch_Start 12]
          ++ concat (replicate loop_count round_calls) ++ [Stopwatch_Stop 12]).
  do 4 eexists. exists disposals.
  split; [|split; [|split; [|split]]].
  - unfold shape, scope_calls. rewrite <- ?app_assoc. reflexivity.
  - unfold shape, scope_calls. rewrite <- ?app_assoc. reflexivity.
  - reflexivity.
  - apply elem_of_app. left. apply list_elem_of_In. simpl. tauto.
  - by repeat constructor.
Qed.

(** *** The accessors of the complete listing *)

Lemma listing_setter_run (depth : nat) (value : Line) (h : Heap) :
  Listing.set_LabelText depth value h = (None, h, []).
Proof.
  induction depth as [|depth IH]; [reflexivity|].
  simpl. unfold mbind, M_bind, bind. by rewrite IH.
Qed.

Lemma listing_getter_run (depth : nat) (h : Heap) :
  Listing.get_LabelText depth h = (None, h, []).
Proof. induction depth as [|depth IH]; [reflexivity | exact IH]. Qed.

(** X17: with the accessors of the complete listing, an assignment to
    [LabelText] does not return however deep the stack is, and neither does a
    read; before the stack is full the setter has assigned nothing to the
    field and has not called [OnPropertyChanged].  The setter of the cell
    that introduces the property returns after these two calls. *)
Theorem listing_accessors_never_return (depth : nat) (value : Line) (h : Heap) :
  Listing.set_LabelText depth value h = (None, h, [])
  ∧ Listing.get_LabelText depth h = (None, h, [])
  ∧ MainPage.set_LabelText value h
    = (tt, h, [Set_labelText value; OnPropertyChanged "LabelText"]).
Proof.
  split; [apply listing_setter_run|].
  split; [apply listing_getter_run | reflexivity].
Qed.

End LifetimeFacts.

(** ** Where keys and encrypted tensors go, and what the clock measures *)

Module DataflowFacts.
Import Py Binary64 Cells Dataflow.

Lemma encrypted_kept_Forall (t : list Event) :
  Forall (λ e, ∀ id, id ∈ given e → id ∈ concat (map makes_encrypted t) →
                     takes_encrypted e = true) t →
  encrypted_kept t.
Proof.
  intros H e id He. rewrite Forall_forall in H. by apply H.
Qed.

Lemma only_to_constant_Forall (key : nat) (t : list Event) :
  Forall (λ e, key ∈ given e →
               ∃ arguments result, e = Call tf_seal "constant" arguments result) t →
  only_to_constant key t.
Proof.
  intros H e He. rewrite Forall_forall in H. by apply H.
Qed.

Ltac not_given :=
  let id := fresh "id" in
  let Hg := fresh "Hg" in
  let He := fresh "He" in
  intros id Hg He; try reflexivity; exfalso;
  simpl in Hg; set_unfold; lia.

Ltac not_key :=
  let Hg := fresh "Hg" in
  intros Hg; first [by eexists _, _ | exfalso; simpl in Hg; set_unfold; lia].

(** The events of the timing cell: its first part, then the lines it gets
    to print, then the end of the session. *)
Lemma cell_158_events (d tf_d : Val) (r : LogisticRegression.Readings)
    (s : nat) :
  ∃ lines,
    events (LogisticRegression.cell_158 d tf_d r) s
    = [ Call tensorflow "compat.v1.Session" [] (Obj s);
        Call tensorflow "Session.__enter__" [Obj s] (Obj s);
        Print [Text (nl +:+ "TF SEAL Logistic Regression")];
        Call time "process_time" [] (Float (LogisticRegression.time_ini1 r));
        Call tensorflow "Session.run" [Obj s; d] (Obj (S s));
        Call time "process_time" [] (Float (LogisticRegression.time_fin1 r));
        Print [Obj (S s)];
        Print [Text (nl +:+ "Approximately Equals" +:+ nl)];
        Print [Text "Tensorflow Logistic Regression"];
        Call time "process_time" [] (Float (LogisticRegression.time_ini2 r));
        Call tensorflow "Session.run" [Obj s; tf_d] (Obj (S (S s)));
        Call time "process_time" [] (Float (LogisticRegression.time_fin2 r));
        Print [Obj (S (S s))] ]
      ++ lines
      ++ [Call tensorflow "Session.__exit__" [Obj s] None_]
    ∧ Forall (λ e, activity e = Some Spec.Printing ∧ given e = []) lines.
Proof.
  unfold events, LogisticRegression.cell_158, with_Session.
  unfold mbind, P_bind, bind, call, call_, print_, event,
    LogisticRegression.process_time, lift, mret, P_ret, ret. simpl.
  destruct (Binary64.shown_time _ _) as [t1 | e1];
    [|exists []; split; [reflexivity | constructor]].
  destruct (Binary64.shown_time _ _) as [t2 | e2];
    [|eexists [_]; split; [reflexivity | by repeat constructor]].
  destruct (Binary64.slowdown _ _ _ _) as [n | e3];
    [eexists [_; _; _] | eexists [_; _]];
    (split; [reflexivity | by repeat constructor]).
Qed.

Lemma nothing_given_makes_nothing (lines : list Event) :
  Forall (λ e, activity e = Some Spec.Printing ∧ given e = []) lines →
  concat (map makes_encrypted lines) = [].
Proof.
  induction 1 as [|e l [He _] _ IH]; [reflexivity|].
  simpl. rewrite IH. by destruct e as [|[] | | |].
Qed.

Lemma run_events (r : LogisticRegression.Readings) (s : nat) :
  events (LogisticRegression.run r) s
  = events (LogisticRegression.cell_44;; LogisticRegression.cell_106) s
    ++ events (LogisticRegression.cell_158 (Obj (10 + s)) (Obj (12 + s)) r) (13 + s).
Proof.
  unfold events, LogisticRegression.run. 
  unfold mbind, P_bind, bind. simpl.
  by destruct (LogisticRegression.cell_158 _ _ _ _) as [[? ?] ?].
Qed.


(** The keys and the encrypted tensors of the logistic-regression notebook:
    the two keys, [a], [c] and [d]. *)
Lemma run_makes_encrypted (r : LogisticRegression.Readings) (s : nat) :
  concat (map makes_encrypted (events (LogisticRegression.run r) s))
  = [s; S s; 4 + s; 8 + s; 10 + s]%nat.
Proof.
  rewrite run_events.
  destruct (cell_158_events (Obj (10 + s)) (Obj (12 + s)) r (13 + s))
    as (lines & -> & Hl).
  rewrite !map_app, !concat_app, (nothing_given_makes_nothing lines Hl).
  reflexivity.
Qed.

(** In the notebook on TF SEAL, run from its first cell, and in the
    logistic-regression notebook, whatever the clock reads, the keys and the
    encrypted tensors (what the members of [tf_seal] return) are given only
    to members of [tf_seal], to [sess.run] and to [sigmoid], which gives its
    argument to [tfs.poly_eval]: none is printed, none is given to [numpy]
    or to another member of [tensorflow]; and the secret key is given to
    [tfs.constant] only. *)
Theorem keys_and_encrypted_tensors_stay_in_the_library
    (r : LogisticRegression.Readings) (s : nat) :
  encrypted_kept (events TFSealNotebook.run s)
  ∧ only_to_constant (S s) (events TFSealNotebook.run s)
  ∧ encrypted_kept (events (LogisticRegression.run r) s)
  ∧ only_to_constant (S s) (events (LogisticRegression.run r) s).
Proof.
  split; [|split; [|split]].
  - apply encrypted_kept_Forall.
    let l := eval vm_compute in (concat (map makes_encrypted (events TFSealNotebook.run s))) in
    change (concat (map makes_encrypted (events TFSealNotebook.run s))) with l.
    let t := eval vm_compute in (events TFSealNotebook.run s) in
    change (events TFSealNotebook.run s) with t.
    repeat (constructor; [not_given|]). constructor.
  - apply only_to_constant_Forall.
    let t := eval vm_compute in (events TFSealNotebook.run s) in
    change (events TFSealNotebook.run s) with t.
    repeat (constructor; [not_key|]). constructor.
  - apply encrypted_kept_Forall. rewrite run_makes_encrypted, run_events.
    destruct (cell_158_events (Obj (10 + s)) (Obj (12 + s)) r (13 + s))
      as (lines & -> & Hl).
    let t := eval vm_compute in
      (events (LogisticRegression.cell_44;; LogisticRegression.cell_106) s) in
    change (events (LogisticRegression.cell_44;; LogisticRegression.cell_106) s)
      with t.
    rewrite !Forall_app. repeat split.
    + repeat (constructor; [not_given|]). constructor.
    + repeat (constructor; [not_given|]). constructor.
    + eapply Forall_impl; [exact Hl|]. intros e [_ He] id Hid.
      rewrite He in Hid. set_solver.
    + repeat (constructor; [not_given|]). constructor.
  - apply only_to_constant_Forall. rewrite run_events.
    destruct (cell_158_events (Obj (10 + s)) (Obj (12 + s)) r (13 + s))
      as (lines & -> & Hl).
    let t := eval vm_compute in
      (events (LogisticRegression.cell_44;; LogisticRegression.cell_106) s) in
    change (events (LogisticRegression.cell_44;; LogisticRegression.cell_106) s)
      with t.
    rewrite !Forall_app. repeat split.
    + repeat (constructor; [not_key|]). constructor.
    + repeat (constructor; [not_key|]). constructor.
    + eapply Forall_impl; [exact Hl|]. intros e [_ He] Hid.
      rewrite He in Hid. set_solver.
    + repeat (constructor; [not_key|]). constructor.
Qed.

(** In the timing cell each of the two measurements is one [sess.run]
    between two readings of [time.process_time()], the first of [d] and the
    second of [tf_d]; the clock is read nowhere else, and between the two
    measurements the cell only prints.  The session is opened, and the
    lines are printed, outside the measurements. *)
Theorem each_measurement_is_one_run (d tf_d : Val)
    (r : LogisticRegression.Readings) (s : nat) :
  runs_timed d tf_d r (events (LogisticRegression.cell_158 d tf_d r) s).
Proof.
  destruct (cell_158_events d tf_d r s) as (lines & -> & Hl).
  eexists [_; _; _], _, _, [_; _; _], _, (_ :: lines ++ [_]).
  split; [reflexivity|]. split; [|by repeat constructor].
  rewrite !Forall_app. repeat split.
  - by repeat constructor.
  - by repeat constructor.
  - constructor; [done|]. rewrite Forall_app. split.
    + eapply Forall_impl; [exact Hl|]. by intros e [-> _].
    + by repeat constructor.
Qed.

(** Both [main] make one placeholder [a] and one constant [b], open one
    session, with the configuration [server_config_from_flags] returns for
    the flags and the name of [a], and run it twice, each time feeding [a]
    a new [np.ones((1, 1))]: the first [main] fetches [a] and then [b], and
    prints the two values; the second fetches [a] and then [c], the product
    of [a] and [b], and prints nothing. *)
Theorem main_runs_the_configured_session (FLAGS : HETransformer.Flags)
    (s : nat) :
  (tensorflow_calls "compat.v1.placeholder"
     (events (HETransformerScript.main FLAGS) s)
   = [ ([Name "tf.float32"; Kw "shape" (Shape 1 1);
         Kw "name" (Text "client_parameter_name")], Obj s) ]
   ∧ tensorflow_calls "constant" (events (HETransformerScript.main FLAGS) s)
     = [ ([Obj (1 + s); Kw "dtype" (Name "np.float32")], Obj (2 + s)) ]
   ∧ tensorflow_calls "compat.v1.Session"
       (events (HETransformerScript.main FLAGS) s)
     = [ ([Kw "config" (Message (HETransformerMain.main_config FLAGS))],
          Obj (8 + s)) ]
   ∧ tensorflow_calls "Session.run" (events (HETransformerScript.main FLAGS) s)
     = [ ([Obj (8 + s); Obj s; Kw "feed_dict" (Feed (Obj s) (Obj (9 + s)))],
          Obj (10 + s));
         ([Obj (8 + s); Obj (2 + s);
           Kw "feed_dict" (Feed (Obj s) (Obj (11 + s)))],
          Obj (12 + s)) ]
   ∧ printed (events (HETransformerScript.main FLAGS) s)
     = [ [Obj (10 + s); Obj (12 + s)] ])
  ∧ (tensorflow_calls "compat.v1.placeholder"
       (events (HETransformerScript.main_556 FLAGS) s)
     = [ ([Name "tf.float32"; Kw "shape" (Shape 1 1);
           Kw "name" (Text "client_parameter_name")], Obj s) ]
     ∧ tensorflow_calls "constant"
         (events (HETransformerScript.main_556 FLAGS) s)
       = [ ([Obj (1 + s); Kw "dtype" (Name "np.float32")], Obj (2 + s)) ]
     ∧ tensorflow_calls "Tensor.__mul__"
         (events (HETransformerScript.main_556 FLAGS) s)
       = [ ([Obj s; Obj (2 + s)], Obj (3 + s)) ]
     ∧ tensorflow_calls "compat.v1.Session"
         (events (HETransformerScript.main_556 FLAGS) s)
       = [ ([Kw "config" (Message (HETransformerMain.main_config FLAGS))],
            Obj (9 + s)) ]
     ∧ tensorflow_calls "Session.run"
         (events (HETransformerScript.main_556 FLAGS) s)
       = [ ([Obj (9 + s); Obj s;
             Kw "feed_dict" (Feed (Obj s) (Obj (10 + s)))],
            Obj (11 + s));
           ([Obj (9 + s); Obj (3 + s);
             Kw "feed_dict" (Feed (Obj s) (Obj (12 + s)))],
            Obj (13 + s)) ]
     ∧ printed (events (HETransformerScript.main_556 FLAGS) s) = []).
Proof. repeat split; reflexivity. Qed.

Lemma nothing_given_calls_nothing (lines : list Event) :
  Forall (λ e, activity e = Some Spec.Printing ∧ given e = []) lines →
  tf_seal_calls lines = [].
Proof.
  induction 1 as [|e l [He _] _ IH]; [reflexivity|].
  destruct e as [|[] | | |]; try discriminate He; exact IH.
Qed.

(** The members of [tf_seal] that the notebooks call, in the order of the
    calls: the notebook on TF SEAL generates the keys once, encrypts [a],
    multiplies, encrypts [a] and [b] and multiplies; the
    logistic-regression notebook generates the keys, encrypts [a],
    multiplies and evaluates the polynomial, whatever the clock reads; the
    HE Transformer script calls none. *)
Theorem tf_seal_members_called (r : LogisticRegression.Readings)
    (FLAGS : HETransformer.Flags) (s : nat) :
  tf_seal_calls (events TFSealNotebook.run s)
  = ["seal_key_gen"; "constant"; "matmul"; "constant"; "constant"; "matmul"]
  ∧ tf_seal_calls (events (LogisticRegression.run r) s)
    = ["seal_key_gen"; "constant"; "matmul"; "poly_eval"]
  ∧ tf_seal_calls
      (events (HETransformerScript.cell_339;;
               HETransformerScript.cell_429 HETransformerScript.main FLAGS) s)
    = []
  ∧ tf_seal_calls
      (events (HETransformerScript.cell_339;;
               HETransformerScript.cell_429 HETransformerScript.main_556 FLAGS)
              s)
    = [].
Proof.
  split; [reflexivity|]. split; [|split; reflexivity].
  rewrite run_events.
  destruct (cell_158_events (Obj (10 + s)) (Obj (12 + s)) r (13 + s))
    as (lines & -> & Hl).
  unfold tf_seal_calls. rewrite !omap_app.
  fold (tf_seal_calls lines). rewrite (nothing_given_calls_nothing lines Hl).
  reflexivity.
Qed.

End DataflowFacts.
